(** * TimeSlotManager: slot generation, filtering, conflict removal, ranking

    A shallow embedding of [src/services/scheduling/TimeSlotManager.ts]
    (class [TimeSlotManagerImpl]) and the properties of its scheduling
    pipeline.

    Conventions of the embedding.
    - A JavaScript [Date] is the integer count of milliseconds it holds;
      the getters ([getHours], [getDay], ...) read the calendar fields of
      that count.  [toZonedTime] shifts a date by the offset of the viewer's
      zone, so that the getters of the result read the viewer's wall clock.
    - Asynchronous methods run in a state monad over the manager's mutable
      state: the scheduled tasks held by the slot scorer and the log of the
      calls made to the collaborators.
    - The [while] loop of [generatePotentialSlots] is a step function on the
      loop state, iterated with fuel.
    - Collaborators whose code is not in [TimeSlotManager.ts] (the calendar
      service, the slot scorer, the settings decoders, the zone database)
      are fields of records that the definitions take as arguments. *)

From Stdlib Require Import ZArith List Bool String Lia Sorted Permutation.
Import ListNotations.
Local Open Scope Z_scope.

(** ** Dates *)

Module DateUtils.

Definition Date := Z.

Definition msPerMinute : Z := 60000.
Definition msPerHour : Z := 3600000.
Definition msPerDay : Z := 86400000.
Definition msPerHalfHour : Z := 1800000.

(** [Date.prototype.getHours]: hour of the day, 0..23. *)
Definition getHours (d : Date) : Z := (d / msPerHour) mod 24.

(** [Date.prototype.getMinutes]: minute of the hour, 0..59. *)
Definition getMinutes (d : Date) : Z := (d / msPerMinute) mod 60.

(** [Date.prototype.getDay] and [getDay] of date-utils: day of the week,
    0 (Sunday) .. 6 (Saturday); day 0 of the count is a Thursday. *)
Definition getDay (d : Date) : Z := (d / msPerDay + 4) mod 7.

(** [Date.prototype.toDateString] names the calendar day of a date; two
    dates have equal strings exactly when they lie on the same day, so the
    string is represented by the ordinal of the day. *)
Definition toDateString (d : Date) : Z := d / msPerDay.

(** Modelled from the spec: the time arithmetic utilities of
    [@/lib/date-utils] (add minutes and days, set the hour and the minute
    field, ceiling to the half hour) are imported by the source and not
    defined in it.  Setting a field leaves the other fields as they are. *)
Definition addMinutes (d : Date) (n : Z) : Date := d + n * msPerMinute.

Definition addDays (d : Date) (n : Z) : Date := d + n * msPerDay.

Definition setHours (d : Date) (h : Z) : Date := d + (h - getHours d) * msPerHour.

Definition setMinutes (d : Date) (m : Z) : Date := d + (m - getMinutes d) * msPerMinute.

(** Modelled from the spec: [roundDateUp] of [@/lib/date-utils], "ceiling to
    the nearest half hour; no-op if already aligned". *)
Definition roundDateUp (d : Date) : Date :=
  ((d + (msPerHalfHour - 1)) / msPerHalfHour) * msPerHalfHour.

(** Modelled from the spec: [differenceInHours] of [@/lib/date-utils], the
    distance between two dates "in whole hours". *)
Definition differenceInHours (a b : Date) : Z := Z.quot (a - b) msPerHour.

(** The viewer's zone: the name kept by the manager, and the zone database
    that gives the shift of a zone at a date. *)
Definition ZoneDatabase := string -> Date -> Z.

(** Modelled from the spec: [toZonedTime] of [@/lib/date-utils], "zone
    conversion" of a date into the viewer's local zone. *)
Definition toZonedTime (zones : ZoneDatabase) (d : Date) (timeZone : string) : Date :=
  d + zones timeZone d.

End DateUtils.
Export DateUtils.

(** ** Data model *)

Module Scheduling.

(** Modelled from the spec: [Conflict] of [@/types/scheduling], "an existing
    busy interval that overlaps a candidate slot". *)
Record Conflict := mkConflict {
  conflictStart : Date;
  conflictEnd : Date;
  conflictTitle : string
}.

(** [TimeSlot] of [@/types/scheduling], with the fields the manager writes. *)
Record TimeSlot := mkTimeSlot {
  start : Date;
  end_ : Date;
  score : Z;
  conflicts : list Conflict;
  energyLevel : option string;
  isWithinWorkHours : bool;
  hasBufferTime : bool
}.

(** The fields of a prisma [Task] that the manager reads. *)
Record Task := mkTask {
  id : string;
  duration : option Z;
  isAutoScheduled : bool;
  scheduledStart : option Date;
  scheduledEnd : option Date;
  projectId : option string
}.

(** The fields of the prisma [AutoScheduleSettings] that the manager reads;
    [workDays] and [selectedCalendars] are stored encoded. *)
Record AutoScheduleSettings := mkSettings {
  workHourStart : Z;
  workHourEnd : Z;
  workDays : string;
  bufferMinutes : Z;
  selectedCalendars : string
}.

Definition set_isWithinWorkHours (s : TimeSlot) (b : bool) : TimeSlot :=
  mkTimeSlot (start s) (end_ s) (score s) (conflicts s) (energyLevel s) b (hasBufferTime s).

Definition set_hasBufferTime (s : TimeSlot) (b : bool) : TimeSlot :=
  mkTimeSlot (start s) (end_ s) (score s) (conflicts s) (energyLevel s) (isWithinWorkHours s) b.

Definition set_score (s : TimeSlot) (v : Z) : TimeSlot :=
  mkTimeSlot (start s) (end_ s) v (conflicts s) (energyLevel s) (isWithinWorkHours s) (hasBufferTime s).

Definition set_conflicts (s : TimeSlot) (c : list Conflict) : TimeSlot :=
  mkTimeSlot (start s) (end_ s) (score s) c (energyLevel s) (isWithinWorkHours s) (hasBufferTime s).

End Scheduling.
Export Scheduling.

(** ** Collaborators *)

(** One entry of the answer to a batched conflict query. *)
Record BatchResult := mkBatchResult {
  resultSlot : TimeSlot;
  resultConflicts : list Conflict
}.

(** The interface of [./CalendarService] that the manager calls.  A slot
    to check is paired with the identifier of the task. *)
Record CalendarService := mkCalendarService {
  findConflicts : TimeSlot -> list string -> list Conflict;
  findBatchConflicts :
    list (TimeSlot * string) -> list string -> string -> list BatchResult
}.

(** The interface of [./SlotScorer] that the manager calls: the total of
    [scoreSlot], which the scorer computes from the scheduled tasks it was
    last given, the clock, the slot and the task. *)
Record SlotScorer := mkSlotScorer {
  scoreSlotTotal : list Task -> Date -> TimeSlot -> Task -> Z
}.

(** What the module imports and reads from outside: the clock behind
    [newDate()], the zone database, and the decoders of [@/lib/autoSchedule]
    for the encoded settings. *)
Record Env := mkEnv {
  now : Date;
  zones : ZoneDatabase;
  parseWorkDays : string -> list Z;
  parseSelectedCalendars : string -> list string
}.

(** The calls a manager makes to its collaborators, in the order made. *)
Inductive Call :=
| TaskFindMany
| FindConflicts (slot : TimeSlot) (calendars : list string)
| FindBatchConflicts (slotsToCheck : list (TimeSlot * string))
    (calendars : list string) (taskId : string).

(** The mutable state behind a manager: the scheduled tasks held by its
    slot scorer, and the log of calls. *)
Record ManagerState := mkManagerState {
  scheduledTasks : list Task;
  calls : list Call
}.

(** ** The monad of asynchronous methods *)

Definition Async (A : Type) : Type := ManagerState -> A * ManagerState.

Definition ret {A} (a : A) : Async A := fun st => (a, st).

Definition bind {A B} (c : Async A) (k : A -> Async B) : Async B :=
  fun st => let (a, st') := c st in k a st'.

Declare Scope async_scope.
Delimit Scope async_scope with async.
Notation "x <- c ;; k" := (bind c (fun x => k))
  (at level 61, c at next level, right associativity) : async_scope.
Notation "c ;;; k" := (bind c (fun _ => k))
  (at level 61, right associativity) : async_scope.

(** Records a call in the log. *)
Definition call (c : Call) : Async unit :=
  fun st => (tt, mkManagerState (scheduledTasks st) (calls st ++ [c])).

(** [slotScorer.updateScheduledTasks]: replaces the scorer's tasks. *)
Definition scorerUpdateScheduledTasks (tasks : list Task) : Async unit :=
  fun st => (tt, mkManagerState tasks (calls st)).

(** Reads the scorer's tasks. *)
Definition scorerScheduledTasks : Async (list Task) :=
  fun st => (scheduledTasks st, st).

Definition isSome {A} (o : option A) : bool :=
  match o with Some _ => true | None => false end.

(** ** The manager *)

Module TimeSlotManagerImpl.

Local Open Scope async_scope.

Definition DEFAULT_TASK_DURATION : Z := 30.

Definition MINIMUM_BUFFER_MINUTES : Z := 15.

(** The fields of the class; [prisma] is the task table it queries.  The
    scheduled tasks of [slotScorer] live in the [ManagerState]. *)
Record t := mk {
  settings : AutoScheduleSettings;
  calendarService : CalendarService;
  prisma : list Task;
  slotScorer : SlotScorer;
  timeZone : string
}.

(** The [where] clause of the query of [updateScheduledTasks]. *)
Definition isScheduledTask (task : Task) : bool :=
  isAutoScheduled task && isSome (scheduledStart task)
  && isSome (scheduledEnd task) && isSome (projectId task).

Definition updateScheduledTasks (this : t) : Async unit :=
  call TaskFindMany ;;;
  scorerUpdateScheduledTasks (filter isScheduledTask (prisma this)).

(** [task.duration || DEFAULT_TASK_DURATION]: the default replaces the
    falsy durations, which are the absent one and zero. *)
Definition durationOrDefault (task : Task) : Z :=
  match duration task with
  | None => DEFAULT_TASK_DURATION
  | Some d => if d =? 0 then DEFAULT_TASK_DURATION else d
  end.

(** *** Slot generation *)

(** The value of [localCurrentStart] when the branches on "today" are
    done, before it is rounded. *)
Definition localCurrentStartBeforeRounding (env : Env) (this : t) (startDate : Date)
  : Date :=
  let localStartDate := toZonedTime (zones env) startDate (timeZone this) in
  let localNow := toZonedTime (zones env) (now env) (timeZone this) in
  let localCurrentStart := localStartDate in
  if toDateString localStartDate =? toDateString localNow then
    let localCurrentStart := addMinutes localCurrentStart MINIMUM_BUFFER_MINUTES in
    if getHours localCurrentStart >=? workHourEnd (settings this) then
      addDays
        (setMinutes (setHours localCurrentStart (workHourStart (settings this))) 0)
        1
    else localCurrentStart
  else
    setMinutes (setHours localCurrentStart (workHourStart (settings this))) 0.

(** The state of the [while] loop: the cursor and the array of slots. *)
Record LoopState := mkLoopState {
  localCurrentStart : Date;
  slots : list TimeSlot
}.

(** One turn of the loop; [None] when the loop condition fails. *)
Definition loopStep (duration : Z) (localEndDate : Date) (st : LoopState)
  : option LoopState :=
  if localCurrentStart st <? localEndDate then
    let slotEnd := addMinutes (localCurrentStart st) duration in
    let slot := mkTimeSlot (localCurrentStart st) slotEnd 0 [] None false false in
    Some (mkLoopState (addMinutes (localCurrentStart st) duration)
                      (slots st ++ [slot]))
  else None.

(** The loop state after [n] turns, if the loop takes that many. *)
Fixpoint loopIter (n : nat) (duration : Z) (localEndDate : Date) (st : LoopState)
  : option LoopState :=
  match n with
  | O => Some st
  | S k =>
      match loopStep duration localEndDate st with
      | Some st' => loopIter k duration localEndDate st'
      | None => None
      end
  end.

(** The loop run to its exit, with fuel: [None] when the fuel runs out
    before the loop condition fails. *)
Fixpoint runLoop (fuel : nat) (duration : Z) (localEndDate : Date) (st : LoopState)
  : option (list TimeSlot) :=
  match loopStep duration localEndDate st with
  | None => Some (slots st)
  | Some st' =>
      match fuel with
      | O => None
      | S k => runLoop k duration localEndDate st'
      end
  end.

Definition generatePotentialSlots (fuel : nat) (env : Env) (this : t)
    (duration : Z) (startDate endDate : Date) : option (list TimeSlot) :=
  let localEndDate := toZonedTime (zones env) endDate (timeZone this) in
  let localCurrentStart := localCurrentStartBeforeRounding env this startDate in
  let localCurrentStart := roundDateUp localCurrentStart in
  let localEndDate := roundDateUp localEndDate in
  runLoop fuel duration localEndDate (mkLoopState localCurrentStart []).

(** *** Work hours *)

Definition includes (l : list Z) (x : Z) : bool := existsb (Z.eqb x) l.

(** The callback of the [filter] of [filterByWorkHours]: its [result]. *)
Definition workHoursFilterResult (env : Env) (this : t) (slot : TimeSlot) : bool :=
  let localStart := toZonedTime (zones env) (start slot) (timeZone this) in
  let localEnd := toZonedTime (zones env) (end_ slot) (timeZone this) in
  let startHour := getHours localStart in
  let endHour := getHours localEnd in
  let dayOfWeek := getDay localStart in
  let workDays := parseWorkDays env (workDays (settings this)) in
  let isWorkDay := includes workDays dayOfWeek in
  let isWithinWorkHours :=
    (startHour >=? workHourStart (settings this))
    && (endHour <=? workHourEnd (settings this))
    && (startHour <? workHourEnd (settings this)) in
  isWorkDay && isWithinWorkHours.

(** The callback sets the flag of the slots it keeps. *)
Fixpoint filterByWorkHours (env : Env) (this : t) (slots : list TimeSlot)
  : list TimeSlot :=
  match slots with
  | [] => []
  | slot :: rest =>
      if workHoursFilterResult env this slot
      then set_isWithinWorkHours slot true :: filterByWorkHours env this rest
      else filterByWorkHours env this rest
  end.

Definition isWithinWorkHours (env : Env) (this : t) (slot : TimeSlot) : bool :=
  let localStart := toZonedTime (zones env) (start slot) (timeZone this) in
  let localEnd := toZonedTime (zones env) (end_ slot) (timeZone this) in
  let workDays := parseWorkDays env (workDays (settings this)) in
  let slotDay := getDay localStart in
  if negb (includes workDays slotDay) then false
  else
    let startHour := getHours localStart in
    let endHour := getHours localEnd in
    (startHour >=? workHourStart (settings this))
    && (endHour <=? workHourEnd (settings this))
    && (startHour <? workHourEnd (settings this)).

(** *** Conflicts *)

Definition findCalendarConflicts (env : Env) (this : t) (slot : TimeSlot)
  : Async (list Conflict) :=
  let selectedCalendars :=
    parseSelectedCalendars env (selectedCalendars (settings this)) in
  if (List.length selectedCalendars =? 0)%nat then ret []
  else
    call (FindConflicts slot selectedCalendars) ;;;
    ret (findConflicts (calendarService this) slot selectedCalendars).

(** The [for] loop over the results of the batched query: a slot without
    conflicts is pushed on [availableSlots]; the conflicts of the others
    are written on a slot that is not pushed. *)
Definition processResults (batchResults : list BatchResult) : list TimeSlot :=
  fold_left
    (fun availableSlots result =>
       if (List.length (resultConflicts result) =? 0)%nat
       then availableSlots ++ [resultSlot result]
       else availableSlots)
    batchResults [].

Definition removeConflicts (env : Env) (this : t) (slots : list TimeSlot)
    (task : Task) : Async (list TimeSlot) :=
  let selectedCalendars :=
    parseSelectedCalendars env (selectedCalendars (settings this)) in
  let slotsToCheck := map (fun slot => (slot, id task)) slots in
  call (FindBatchConflicts slotsToCheck selectedCalendars (id task)) ;;;
  let batchResults :=
    findBatchConflicts (calendarService this) slotsToCheck selectedCalendars
      (id task) in
  ret (processResults batchResults).

Definition isSlotAvailable (env : Env) (this : t) (slot : TimeSlot) : Async bool :=
  if negb (isWithinWorkHours env this slot) then ret false
  else
    conflicts <- findCalendarConflicts env this slot ;;
    ret (List.length conflicts =? 0)%nat.

(** *** Buffers *)

Record BufferTimes := mkBufferTimes {
  beforeBuffer : TimeSlot;
  afterBuffer : TimeSlot
}.

Definition calculateBufferTimes (env : Env) (this : t) (slot : TimeSlot)
  : BufferTimes :=
  let bufferMinutes := bufferMinutes (settings this) in
  mkBufferTimes
    (mkTimeSlot (addMinutes (start slot) (- bufferMinutes)) (start slot) 0 [] None
       (isWithinWorkHours env this
          (mkTimeSlot (addMinutes (start slot) (- bufferMinutes)) (start slot)
             0 [] None false false))
       false)
    (mkTimeSlot (end_ slot) (addMinutes (end_ slot) bufferMinutes) 0 [] None
       (isWithinWorkHours env this
          (mkTimeSlot (end_ slot) (addMinutes (end_ slot) bufferMinutes)
             0 [] None false false))
       false).

(** The callback of the [map] of [applyBufferTimes]. *)
Definition applyBufferTimesTo (env : Env) (this : t) (slot : TimeSlot) : TimeSlot :=
  let buffers := calculateBufferTimes env this slot in
  set_hasBufferTime slot
    (Scheduling.isWithinWorkHours (beforeBuffer buffers)
     && Scheduling.isWithinWorkHours (afterBuffer buffers)).

Definition applyBufferTimes (env : Env) (this : t) (slots : list TimeSlot)
  : list TimeSlot :=
  map (applyBufferTimesTo env this) slots.

(** *** Scores *)

Definition calculateBaseScore (env : Env) (slot : TimeSlot) : Z :=
  let hoursSinceNow := differenceInHours (start slot) (now env) in
  - hoursSinceNow.

Definition scoreSlot (env : Env) (slot : TimeSlot) : Z := calculateBaseScore env slot.

(** The callback of the [map] of [scoreSlots]: a copy of the slot with the
    total of the scorer, which scores with the tasks it holds. *)
Definition scoreSlotsTo (env : Env) (this : t) (tasks : list Task) (task : Task)
    (slot : TimeSlot) : TimeSlot :=
  set_score slot (scoreSlotTotal (slotScorer this) tasks (now env) slot task).

Definition scoreSlots (env : Env) (this : t) (slots : list TimeSlot) (task : Task)
  : Async (list TimeSlot) :=
  tasks <- scorerScheduledTasks ;;
  ret (map (scoreSlotsTo env this tasks task) slots).

(** [Array.prototype.sort] is a stable sort by the comparator: an element
    goes before the first element of the sorted rest that the comparator
    does not put before it. *)
Fixpoint sortInsert {A} (compareFn : A -> A -> Z) (x : A) (sorted : list A) : list A :=
  match sorted with
  | [] => [x]
  | y :: rest =>
      if compareFn x y <=? 0 then x :: y :: rest
      else y :: sortInsert compareFn x rest
  end.

Definition sort {A} (compareFn : A -> A -> Z) (l : list A) : list A :=
  fold_right (sortInsert compareFn) [] l.

Definition sortByScore (slots : list TimeSlot) : list TimeSlot :=
  sort (fun a b => score b - score a) slots.

(** *** The pipeline *)

Definition findAvailableSlots (fuel : nat) (env : Env) (this : t) (task : Task)
    (startDate endDate : Date) : Async (option (list TimeSlot)) :=
  updateScheduledTasks this ;;;
  match
    generatePotentialSlots fuel env this (durationOrDefault task) startDate endDate
  with
  | None => ret None
  | Some potentialSlots =>
      let workHourSlots := filterByWorkHours env this potentialSlots in
      availableSlots <- removeConflicts env this workHourSlots task ;;
      let slotsWithBuffer := applyBufferTimes env this availableSlots in
      scoredSlots <- scoreSlots env this slotsWithBuffer task ;;
      let sortedSlots := sortByScore scoredSlots in
      ret (Some sortedSlots)
  end.

End TimeSlotManagerImpl.

(** ** The specification's reading of the duration

    The duration a task is scheduled with as the specification words it:
    "falling back to a default of 30 if unset or non-positive".  It is
    compared with [durationOrDefault], which embeds the source. *)
Definition specDuration (task : Task) : Z :=
  match duration task with
  | None => 30
  | Some d => if d <=? 0 then 30 else d
  end.

(** The contract of a calendar service for batched queries: the answer
    holds one result per slot asked about, in the order asked. *)
Definition answersEachSlot (service : CalendarService) : Prop :=
  forall slotsToCheck calendars taskId,
    map resultSlot (findBatchConflicts service slotsToCheck calendars taskId)
    = map fst slotsToCheck.

(** ** Fixtures: a concrete world to run the manager in *)

Module Fixture.

Import Ascii.

(** A date from the ordinal of its day, an hour and a minute. *)
Definition at_ (day hour minute : Z) : Date :=
  day * msPerDay + hour * msPerHour + minute * msPerMinute.

(** Day 19723 of the count is Monday 2024-01-01. *)
Definition monday : Z := 19723.

(** A decoder of work days: the digits 0..6 of the text, in order. *)
Definition digitsOf (s : string) : list Z :=
  flat_map
    (fun c =>
       let n := Z.of_N (N_of_ascii c) - 48 in
       if (0 <=? n) && (n <=? 6) then [n] else [])
    (list_ascii_of_string s).

(** A decoder of calendar lists: the text between the brackets is one
    identifier, and "[]" is the empty list. *)
Definition calendarsOf (s : string) : list string :=
  if String.eqb s "[]" then [] else [s].

(** A zone database where every zone reads as the dates are stored. *)
Definition sameZone : ZoneDatabase := fun _ _ => 0.

Definition env (now : Date) : Env := mkEnv now sameZone digitsOf calendarsOf.

Definition nineToFive : AutoScheduleSettings :=
  mkSettings 9 17 "[1,2,3,4,5]" 15 "[]".

Definition nineToFiveWith (calendars : string) : AutoScheduleSettings :=
  mkSettings 9 17 "[1,2,3,4,5]" 15 calendars.

Definition answer (conflictsOf : TimeSlot -> list Conflict)
    (slotsToCheck : list (TimeSlot * string)) : list BatchResult :=
  map (fun p => mkBatchResult (fst p) (conflictsOf (fst p))) slotsToCheck.

(** A calendar service that never finds a conflict. *)
Definition freeCalendar : CalendarService :=
  mkCalendarService (fun _ _ => []) (fun slotsToCheck _ _ => answer (fun _ => []) slotsToCheck).

Definition meeting (from to : Date) : Conflict := mkConflict from to "meeting".

(** A calendar service that knows one busy interval, whichever calendars
    are selected, and reports it for the slots that overlap it. *)
Definition busyBetween (from to : Date) : CalendarService :=
  let conflictsOf slot :=
    if (start slot <? to) && (from <? end_ slot) then [meeting from to] else [] in
  mkCalendarService
    (fun slot _ => conflictsOf slot)
    (fun slotsToCheck _ _ => answer conflictsOf slotsToCheck).

(** The baseline scorer: earlier slots score higher. *)
Definition earlierIsBetter : SlotScorer :=
  mkSlotScorer (fun _ now slot _ => - differenceInHours (start slot) now).

Definition manager (settings : AutoScheduleSettings) (service : CalendarService)
  : TimeSlotManagerImpl.t :=
  TimeSlotManagerImpl.mk settings service [] earlierIsBetter "Europe/Paris".

Definition taskOf (duration : option Z) : Task :=
  mkTask "task-1" duration false None None None.

Definition idle : ManagerState := mkManagerState [] [].

Definition slotAt (from to : Date) : TimeSlot :=
  mkTimeSlot from to 0 [] None false false.

End Fixture.

(** ** Predicates used by the statements *)

(** A slot as the generation loop makes it: no score, no conflicts, no
    energy level, both flags down. *)
Definition freshSlot (slot : TimeSlot) : Prop :=
  score slot = 0 /\ conflicts slot = [] /\ energyLevel slot = None
  /\ Scheduling.isWithinWorkHours slot = false /\ hasBufferTime slot = false.

(** A slot has the given length in minutes, and a positive one. *)
Definition lastsMinutes (minutes : Z) (slot : TimeSlot) : Prop :=
  start slot < end_ slot /\ end_ slot - start slot = minutes * msPerMinute.

(** The slots start one strictly after the other. *)
Definition chronological (slots : list TimeSlot) : Prop :=
  StronglySorted Z.lt (map start slots).

(** The slots are ranked by decreasing score. *)
Definition rankedByScore (slots : list TimeSlot) : Prop :=
  forall i a b,
    nth_error slots i = Some a -> nth_error slots (S i) = Some b ->
    score a >= score b.

(** The result of an asynchronous method run from a state. *)
Definition resultOf {A} (c : Async A) (st : ManagerState) : A := fst (c st).

(** The calls an asynchronous method adds to the log of a state. *)
Definition callsOf {A} (c : Async A) (st : ManagerState) : list Call :=
  skipn (List.length (calls st)) (calls (snd (c st))).

(** The slots that the loop of [generatePotentialSlots] has pushed after a
    number of turns, if it takes that many. *)
Definition generatedAfter (turns : nat) (env : Env) (this : TimeSlotManagerImpl.t)
    (duration : Z) (startDate endDate : Date) : option (list TimeSlot) :=
  option_map TimeSlotManagerImpl.slots
    (TimeSlotManagerImpl.loopIter turns duration
       (roundDateUp (toZonedTime (zones env) endDate (TimeSlotManagerImpl.timeZone this)))
       (TimeSlotManagerImpl.mkLoopState
          (roundDateUp
             (TimeSlotManagerImpl.localCurrentStartBeforeRounding env this startDate))
          [])).

(** Every slot that a call of [findAvailableSlots] generates has the length
    that [minutesOf] gives for the task. *)
Definition everyGeneratedSlotLasts (minutesOf : Task -> Z) : Prop :=
  forall env this task startDate endDate turns generated,
    generatedAfter turns env this (TimeSlotManagerImpl.durationOrDefault task)
      startDate endDate = Some generated ->
    Forall (lastsMinutes (minutesOf task)) generated.

(** The answer of the calendar service to the batched query that
    [removeConflicts] makes for the slots. *)
Definition batchAnswer (env : Env) (this : TimeSlotManagerImpl.t)
    (slots : list TimeSlot) (task : Task) : list BatchResult :=
  findBatchConflicts (TimeSlotManagerImpl.calendarService this)
    (map (fun slot => (slot, id task)) slots)
    (parseSelectedCalendars env (selectedCalendars (TimeSlotManagerImpl.settings this)))
    (id task).

(** The batched query that [removeConflicts] makes for the slots. *)
Definition batchQuery (env : Env) (this : TimeSlotManagerImpl.t)
    (slots : list TimeSlot) (task : Task) : Call :=
  FindBatchConflicts (map (fun slot => (slot, id task)) slots)
    (parseSelectedCalendars env (selectedCalendars (TimeSlotManagerImpl.settings this)))
    (id task).

Definition noConflicts (result : BatchResult) : bool :=
  (List.length (resultConflicts result) =? 0)%nat.

(** The work-hours rule as the specification words it, on the viewer's
    local time: the weekday of the start is a work day, the start hour is
    at least [workHourStart], the end hour at most [workHourEnd], and the
    start hour strictly before [workHourEnd]. *)
Definition workHoursRule (env : Env) (this : TimeSlotManagerImpl.t)
    (slot : TimeSlot) : Prop :=
  let settings := TimeSlotManagerImpl.settings this in
  let localStart :=
    toZonedTime (zones env) (start slot) (TimeSlotManagerImpl.timeZone this) in
  let localEnd :=
    toZonedTime (zones env) (end_ slot) (TimeSlotManagerImpl.timeZone this) in
  In (getDay localStart) (parseWorkDays env (workDays settings))
  /\ getHours localStart >= workHourStart settings
  /\ getHours localEnd <= workHourEnd settings
  /\ getHours localStart < workHourEnd settings.


(** ** Further predicates *)

(** The rounded bounds between which [generatePotentialSlots] runs its
    loop. *)
Definition roundedStart (env : Env) (this : TimeSlotManagerImpl.t)
    (startDate : Date) : Date :=
  roundDateUp (TimeSlotManagerImpl.localCurrentStartBeforeRounding env this startDate).

Definition roundedEnd (env : Env) (this : TimeSlotManagerImpl.t)
    (endDate : Date) : Date :=
  roundDateUp (toZonedTime (zones env) endDate (TimeSlotManagerImpl.timeZone this)).

(** The slot number [k] of a row of fresh slots of one duration that starts
    at [from]. *)
Definition slotNumber (from : Date) (duration : Z) (k : nat) : TimeSlot :=
  mkTimeSlot (addMinutes from (Z.of_nat k * duration))
    (addMinutes from ((Z.of_nat k + 1) * duration)) 0 [] None false false.

(** Two slots do not overlap. *)
Definition disjointSlots (a b : TimeSlot) : Prop :=
  end_ a <= start b \/ end_ b <= start a.

(** A date on a half hour. *)
Definition halfHourAligned (d : Date) : Prop := d mod msPerHalfHour = 0.

(** ** The day view

    The handlers of the [DayView] component, as functions on the state of
    the component.  The stores the component reads (feeds, tasks, events)
    are arguments; the items and feeds carry the fields the handlers
    read. *)

Module DayView.

(** [a || b] on a value that may be absent: an absent or empty text is
    falsy. *)
Definition orText (a : option string) (b : string) : string :=
  match a with
  | Some text => if String.eqb text "" then b else text
  | None => b
  end.

(** [a || b] on an object that may be absent: an object is truthy. *)
Definition orElse {A} (a b : option A) : option A :=
  match a with
  | Some _ => a
  | None => b
  end.

Record Feed := mkFeed {
  feedKey : string;
  enabled : bool;
  feedColor : option string
}.

Record ExtendedProps := mkExtendedProps {
  isTaskProp : bool;
  status : option string;
  priority : option string
}.

(** An item of the calendar as [getAllCalendarItems] gives it. *)
Record CalendarItem := mkCalendarItem {
  itemId : string;
  title : string;
  itemStart : Date;
  itemEnd : Date;
  location : option string;
  feedId : string;
  color : option string;
  allDay : bool;
  isRecurring : bool;
  extendedProps : option ExtendedProps
}.

(** An event as handed to the calendar widget. *)
Record FormattedItem := mkFormattedItem {
  formattedId : string;
  formattedTitle : string;
  formattedStart : Date;
  formattedEnd : Date;
  formattedLocation : option string;
  backgroundColor : string;
  borderColor : string;
  formattedAllDay : bool;
  classNames : list string;
  formattedItem : CalendarItem;
  formattedIsTask : option bool;
  formattedIsRecurring : bool;
  formattedStatus : option string;
  formattedPriority : option string
}.

(** [feeds.find((f) => f.id === item.feedId)]. *)
Definition findFeed (feeds : list Feed) (key : string) : option Feed :=
  find (fun f => String.eqb (feedKey f) key) feeds.

(** The callback of the [filter] of [handleDatesSet]. *)
Definition isShown (feeds : list Feed) (item : CalendarItem) : bool :=
  if String.eqb (feedId item) "tasks" then true
  else
    match findFeed feeds (feedId item) with
    | Some feed => enabled feed
    | None => false
    end.

Definition itemColor (feeds : list Feed) (item : CalendarItem) : string :=
  if String.eqb (feedId item) "tasks" then orText (color item) "#4f46e5"
  else
    orText
      (match findFeed feeds (feedId item) with
       | Some feed => feedColor feed
       | None => None
       end)
      "#3b82f6".

(** The callback of the [map] of [handleDatesSet]. *)
Definition formatItem (feeds : list Feed) (item : CalendarItem) : FormattedItem :=
  mkFormattedItem (itemId item) (title item) (itemStart item) (itemEnd item)
    (location item)
    (itemColor feeds item)
    (itemColor feeds item)
    (allDay item)
    [if match extendedProps item with
        | Some props => isTaskProp props
        | None => false
        end
     then "calendar-task"%string else "calendar-event"%string]
    item
    (option_map isTaskProp (extendedProps item))
    (isRecurring item)
    (match extendedProps item with Some props => status props | None => None end)
    (match extendedProps item with Some props => priority props | None => None end).

(** The events that [handleDatesSet] sets, from the items of the range. *)
Definition handleDatesSet (feeds : list Feed) (items : list CalendarItem)
  : list FormattedItem :=
  map (formatItem feeds) (filter (isShown feeds) items).

(** An item shown in the quick view: a task or an event of the stores. *)
Record ViewItem := mkViewItem {
  viewId : string;
  viewIsRecurring : bool
}.

(** The event given to the event modal: the one of a date selection, which
    has only [allDay], or an event of the store. *)
Inductive SelectedEvent :=
| NewEvent (allDay : bool)
| StoredEvent (event : ViewItem).

(** The store of [useEventModalStore]. *)
Record EventModalStore := mkEventModalStore {
  storeIsOpen : bool;
  defaultDate : option Date;
  defaultEndDate : option Date
}.

(** The state of the component and of the event modal store. *)
Record State := mkState {
  selectedEvent : option SelectedEvent;
  selectedTask : option ViewItem;
  selectedDate : option Date;
  selectedEndDate : option Date;
  isEventModalOpen : bool;
  isTaskModalOpen : bool;
  quickViewItem : option ViewItem;
  quickViewPosition : Z * Z;
  isTask : bool;
  eventModalStore : EventModalStore
}.

Record DateSelectArg := mkDateSelectArg {
  selectStart : Date;
  selectEnd : Date;
  selectAllDay : bool
}.

Definition handleDateSelect (selectInfo : DateSelectArg) (st : State) : State :=
  let start := selectStart selectInfo in
  let end_ := if selectAllDay selectInfo then start else selectEnd selectInfo in
  mkState (Some (NewEvent (selectAllDay selectInfo))) (selectedTask st)
    (Some start) (Some end_) true (isTaskModalOpen st)
    (quickViewItem st) (quickViewPosition st) (isTask st) (eventModalStore st).

Definition handleEventModalClose (st : State) : State :=
  mkState None (selectedTask st) None None false (isTaskModalOpen st)
    (quickViewItem st) (quickViewPosition st) (isTask st)
    (mkEventModalStore false None None).

Definition handleTaskModalClose (st : State) : State :=
  mkState (selectedEvent st) None (selectedDate st) (selectedEndDate st)
    (isEventModalOpen st) false
    (quickViewItem st) (quickViewPosition st) (isTask st) (eventModalStore st).

Definition handleQuickViewClose (st : State) : State :=
  mkState (selectedEvent st) (selectedTask st) (selectedDate st) (selectedEndDate st)
    (isEventModalOpen st) (isTaskModalOpen st)
    None (quickViewPosition st) (isTask st) (eventModalStore st).

Definition handleQuickViewEdit (st : State) : State :=
  match quickViewItem st with
  | None => st
  | Some item =>
      handleQuickViewClose
        (if isTask st then
           mkState (selectedEvent st) (Some item) (selectedDate st)
             (selectedEndDate st) (isEventModalOpen st) true
             (quickViewItem st) (quickViewPosition st) (isTask st)
             (eventModalStore st)
         else
           mkState (Some (StoredEvent item)) (selectedTask st) (selectedDate st)
             (selectedEndDate st) true (isTaskModalOpen st)
             (quickViewItem st) (quickViewPosition st) (isTask st)
             (eventModalStore st))
  end.

(** The click on an event of the widget: its identifier, whether its
    extended properties say it is a task, and the rectangle of its
    element. *)
Record EventClickArg := mkEventClickArg {
  clickedId : string;
  clickedIsTask : bool;
  rectLeft : Z;
  rectBottom : Z
}.

Definition findItem (store : list ViewItem) (key : string) : option ViewItem :=
  find (fun item => String.eqb (viewId item) key) store.

Definition handleEventClick (tasks events : list ViewItem) (info : EventClickArg)
    (st : State) : State :=
  let position := (rectLeft info, rectBottom info + 8) in
  if clickedIsTask info then
    match findItem tasks (clickedId info) with
    | Some task =>
        mkState (selectedEvent st) (selectedTask st) (selectedDate st)
          (selectedEndDate st) (isEventModalOpen st) (isTaskModalOpen st)
          (Some task) position true (eventModalStore st)
    | None =>
        mkState (selectedEvent st) (selectedTask st) (selectedDate st)
          (selectedEndDate st) (isEventModalOpen st) (isTaskModalOpen st)
          (quickViewItem st) position (isTask st) (eventModalStore st)
    end
  else
    mkState (selectedEvent st) (selectedTask st) (selectedDate st)
      (selectedEndDate st) (isEventModalOpen st) (isTaskModalOpen st)
      (findItem events (clickedId info)) position false (eventModalStore st).

(** What [handleQuickViewDelete] asks of the stores. *)
Inductive StoreRequest :=
| DeleteTask (taskId : string)
| RemoveEvent (eventId : string) (mode : string).

(** [confirmed] is the answer to the [confirm] dialog, if one is shown. *)
Definition handleQuickViewDelete (confirmed : bool) (st : State)
  : option StoreRequest * State :=
  match quickViewItem st with
  | None => (None, st)
  | Some item =>
      if isTask st then
        if confirmed then (Some (DeleteTask (viewId item)), handleQuickViewClose st)
        else (None, st)
      else
        if confirmed then
          (Some (RemoveEvent (viewId item)
                   (if viewIsRecurring item then "series" else "single")),
           handleQuickViewClose st)
        else (None, st)
  end.

(** What the component renders of the modals. *)
Definition eventModalIsOpen (st : State) : bool :=
  isEventModalOpen st || storeIsOpen (eventModalStore st).

Definition eventModalDefaultDate (st : State) : option Date :=
  orElse (selectedDate st) (defaultDate (eventModalStore st)).

Definition eventModalDefaultEndDate (st : State) : option Date :=
  orElse (selectedEndDate st) (defaultEndDate (eventModalStore st)).

(** The task modal is rendered when a task is selected, and open then as
    [isTaskModalOpen] says. *)
Definition taskModalIsOpen (st : State) : bool :=
  isSome (selectedTask st) && isTaskModalOpen st.

Definition quickViewIsOpen (st : State) : bool := isSome (quickViewItem st).

End DayView.

(** * Properties *)

Import TimeSlotManagerImpl.

(** ** Date arithmetic *)

Ltac date_arith :=
  unfold addMinutes, addDays, setHours, setMinutes, roundDateUp in *;
  unfold getHours, getMinutes, getDay, toDateString in *;
  unfold msPerMinute, msPerHour, msPerDay, msPerHalfHour in *;
  Z.div_mod_to_equations; lia.

Lemma getHours_range (d : Date) : 0 <= getHours d < 24.
Proof. date_arith. Qed.

Lemma getHours_setHours (d : Date) (h : Z) :
  0 <= h < 24 -> getHours (setHours d h) = h.
Proof. intros. date_arith. Qed.

Lemma toDateString_setHours (d : Date) (h : Z) :
  0 <= h < 24 -> toDateString (setHours d h) = toDateString d.
Proof. intros. date_arith. Qed.

Lemma getMinutes_setMinutes (d : Date) (m : Z) :
  0 <= m < 60 -> getMinutes (setMinutes d m) = m.
Proof. intros. date_arith. Qed.

Lemma getHours_setMinutes (d : Date) (m : Z) :
  0 <= m < 60 -> getHours (setMinutes d m) = getHours d.
Proof. intros. date_arith. Qed.

Lemma toDateString_setMinutes (d : Date) (m : Z) :
  0 <= m < 60 -> toDateString (setMinutes d m) = toDateString d.
Proof. intros. date_arith. Qed.




Lemma roundDateUp_bounds (d : Date) : d <= roundDateUp d < d + msPerHalfHour.
Proof. date_arith. Qed.

Lemma roundDateUp_aligned (k : Z) :
  roundDateUp (k * msPerHalfHour) = k * msPerHalfHour.
Proof. date_arith. Qed.

(** ** The generation loop *)

Section GenerationLoop.

Variables (duration : Z) (localEndDate : Date).

Lemma loopStep_Some (st st' : LoopState) :
  loopStep duration localEndDate st = Some st' ->
  localCurrentStart st < localEndDate
  /\ localCurrentStart st' = addMinutes (localCurrentStart st) duration
  /\ slots st' =
       slots st ++ [mkTimeSlot (localCurrentStart st)
                      (addMinutes (localCurrentStart st) duration)
                      0 [] None false false].
Proof.
  unfold loopStep. destruct (Z.ltb_spec (localCurrentStart st) localEndDate).
  - intros [= <-]. simpl. auto.
  - discriminate.
Qed.

Lemma loopStep_None (st : LoopState) :
  loopStep duration localEndDate st = None <-> localEndDate <= localCurrentStart st.
Proof.
  unfold loopStep. destruct (Z.ltb_spec (localCurrentStart st) localEndDate);
    split; intros; try discriminate; try lia; reflexivity.
Qed.

(** With enough fuel for the distance to the end bound, the loop exits. *)
Lemma runLoop_returns (fuel : nat) :
  0 < duration ->
  forall st,
    localEndDate - localCurrentStart st <= Z.of_nat fuel ->
    exists slots, runLoop fuel duration localEndDate st = Some slots.
Proof.
  intros Hpos. induction fuel as [|fuel IH]; intros st Hdist.
  - simpl. destruct (loopStep duration localEndDate st) eqn:E.
    + apply loopStep_Some in E. lia.
    + eauto.
  - simpl. destruct (loopStep duration localEndDate st) as [st'|] eqn:E.
    + apply IH. apply loopStep_Some in E. destruct E as (_ & -> & _).
      unfold addMinutes, msPerMinute. lia.
    + eauto.
Qed.

(** A loop whose cursor does not advance never exits. *)
Lemma runLoop_diverges (fuel : nat) :
  duration <= 0 ->
  forall st,
    localCurrentStart st < localEndDate ->
    runLoop fuel duration localEndDate st = None.
Proof.
  intros Hneg. induction fuel as [|fuel IH]; intros st Hlt; simpl.
  - destruct (loopStep duration localEndDate st) eqn:E; [reflexivity|].
    apply loopStep_None in E. lia.
  - destruct (loopStep duration localEndDate st) as [st'|] eqn:E.
    + apply IH. apply loopStep_Some in E. destruct E as (_ & -> & _).
      unfold addMinutes, msPerMinute. lia.
    + apply loopStep_None in E. lia.
Qed.

(** More fuel does not change the result of a loop that exits. *)
Lemma runLoop_fuel_mono (fuel fuel' : nat) :
  (fuel <= fuel')%nat ->
  forall st slots,
    runLoop fuel duration localEndDate st = Some slots ->
    runLoop fuel' duration localEndDate st = Some slots.
Proof.
  revert fuel'. induction fuel as [|fuel IH]; intros fuel' Hle st l; simpl.
  - destruct (loopStep duration localEndDate st) eqn:E; [discriminate|].
    intros <-. destruct fuel'; simpl; rewrite E; reflexivity.
  - destruct fuel' as [|fuel']; [lia|]. simpl.
    destruct (loopStep duration localEndDate st) eqn:E; [|auto].
    apply IH. lia.
Qed.

(** What the loop adds to the slots it starts with. *)
Lemma runLoop_slots (fuel : nat) :
  forall st result,
    runLoop fuel duration localEndDate st = Some result ->
    exists added,
      result = slots st ++ added
      /\ Forall (fun slot =>
                   freshSlot slot
                   /\ localCurrentStart st <= start slot
                   /\ end_ slot - start slot = duration * msPerMinute
                   /\ 0 < duration) added
      /\ chronological added
      /\ (localCurrentStart st < localEndDate ->
            exists rest, added =
              mkTimeSlot (localCurrentStart st)
                (addMinutes (localCurrentStart st) duration) 0 [] None false false
              :: rest).
Proof.
  induction fuel as [|fuel IH]; intros st result Hrun0;
    assert (Hrun := Hrun0); simpl in Hrun.
  - destruct (loopStep duration localEndDate st) eqn:E; [discriminate|].
    injection Hrun as <-. exists []. rewrite app_nil_r.
    apply loopStep_None in E.
    repeat split; try constructor. lia.
  - destruct (loopStep duration localEndDate st) as [st'|] eqn:E.
    + apply loopStep_Some in E. destruct E as (Hlt & Hcur & Hslots).
      assert (Hpos : 0 < duration).
      { destruct (Z.ltb_spec 0 duration) as [|Hneg]; [assumption|].
        rewrite (runLoop_diverges (S fuel) Hneg st Hlt) in Hrun0.
        discriminate. }
      destruct (IH _ _ Hrun) as (added & -> & Hall & Hsorted & _).
      eexists. split; [rewrite Hslots, <- app_assoc; reflexivity|].
      split; [|split].
      * constructor.
        -- simpl. unfold freshSlot, addMinutes. simpl. repeat split; lia.
        -- eapply Forall_impl; [|exact Hall]. simpl.
           intros slot (Hfresh & Hle & Hlen & _). rewrite Hcur in Hle.
           unfold addMinutes, msPerMinute in Hle.
           split; [exact Hfresh|]. split; [lia|]. split; assumption.
      * unfold chronological. simpl. constructor; [exact Hsorted|].
        rewrite Forall_map. eapply Forall_impl; [|exact Hall]. simpl.
        intros slot (_ & Hle & _). rewrite Hcur in Hle.
        unfold addMinutes, msPerMinute in Hle. lia.
      * intros _. eexists. reflexivity.
    + injection Hrun as <-. exists []. rewrite app_nil_r.
      apply loopStep_None in E.
      repeat split; try constructor. lia.
Qed.

(** What the turns of the loop add to the slots. *)
Lemma loopIter_slots (turns : nat) :
  forall st st',
    loopIter turns duration localEndDate st = Some st' ->
    exists added,
      slots st' = slots st ++ added
      /\ Forall (fun slot => end_ slot - start slot = duration * msPerMinute) added.
Proof.
  induction turns as [|turns IH]; intros st st'; simpl.
  - intros [= <-]. exists []. rewrite app_nil_r. auto.
  - destruct (loopStep duration localEndDate st) as [next|] eqn:E; [|discriminate].
    intros Hiter. destruct (IH _ _ Hiter) as (added & -> & Hall).
    apply loopStep_Some in E. destruct E as (_ & _ & ->).
    eexists. split; [rewrite <- app_assoc; reflexivity|].
    constructor; [|exact Hall]. simpl. unfold addMinutes. lia.
Qed.

(** A run that returns has taken some number of turns. *)
Lemma runLoop_loopIter (fuel : nat) :
  forall st result,
    runLoop fuel duration localEndDate st = Some result ->
    exists turns st',
      loopIter turns duration localEndDate st = Some st'
      /\ loopStep duration localEndDate st' = None
      /\ slots st' = result.
Proof.
  induction fuel as [|fuel IH]; intros st result; simpl.
  - destruct (loopStep duration localEndDate st) eqn:E; [discriminate|].
    intros [= <-]. exists 0%nat, st. auto.
  - destruct (loopStep duration localEndDate st) as [next|] eqn:E.
    + intros Hrun. destruct (IH _ _ Hrun) as (turns & st' & Hiter & Hexit & Hslots).
      exists (S turns), st'. simpl. rewrite E. auto.
    + intros [= <-]. exists 0%nat, st. auto.
Qed.

End GenerationLoop.

(** ** Slot generation *)

Section Generation.

Variables (env : Env) (this : t).

Lemma generatePotentialSlots_returns (duration : Z) (startDate endDate : Date) :
  0 < duration ->
  exists fuel0, forall fuel, (fuel0 <= fuel)%nat ->
    exists slots,
      generatePotentialSlots fuel env this duration startDate endDate = Some slots.
Proof.
  intros Hpos.
  exists (Z.to_nat
            (roundDateUp (toZonedTime (zones env) endDate (timeZone this))
             - roundDateUp (localCurrentStartBeforeRounding env this startDate))).
  intros fuel Hfuel. unfold generatePotentialSlots.
  apply runLoop_returns; [exact Hpos|]. simpl. lia.
Qed.

Lemma generatePotentialSlots_fuel (fuel fuel' : nat) duration startDate endDate l l' :
  generatePotentialSlots fuel env this duration startDate endDate = Some l ->
  generatePotentialSlots fuel' env this duration startDate endDate = Some l' ->
  l = l'.
Proof.
  unfold generatePotentialSlots. intros H H'.
  destruct (Nat.le_ge_cases fuel fuel') as [Hle|Hle].
  - rewrite (runLoop_fuel_mono _ _ _ _ Hle _ _ H) in H'. congruence.
  - rewrite (runLoop_fuel_mono _ _ _ _ Hle _ _ H') in H. congruence.
Qed.

(** The slots of a generation that returns: fresh, of the duration asked,
    not before the rounded start, one after the other. *)
Lemma generatePotentialSlots_slots (fuel : nat) duration startDate endDate result :
  generatePotentialSlots fuel env this duration startDate endDate = Some result ->
  Forall (fun slot =>
            freshSlot slot
            /\ roundDateUp (localCurrentStartBeforeRounding env this startDate)
               <= start slot
            /\ end_ slot - start slot = duration * msPerMinute
            /\ 0 < duration) result
  /\ chronological result
  /\ (roundDateUp (localCurrentStartBeforeRounding env this startDate)
      < roundDateUp (toZonedTime (zones env) endDate (timeZone this)) ->
      exists rest, result =
        mkTimeSlot
          (roundDateUp (localCurrentStartBeforeRounding env this startDate))
          (addMinutes
             (roundDateUp (localCurrentStartBeforeRounding env this startDate))
             duration)
          0 [] None false false :: rest).
Proof.
  unfold generatePotentialSlots. intros Hrun.
  apply runLoop_slots in Hrun. simpl in Hrun.
  destruct Hrun as (added & -> & Hall & Hsorted & Hfirst). auto.
Qed.

(** The slots of a generation that returns are the slots pushed after
    some number of turns of its loop. *)
Lemma generatePotentialSlots_generatedAfter (fuel : nat) duration startDate endDate
    result :
  generatePotentialSlots fuel env this duration startDate endDate = Some result ->
  exists turns,
    generatedAfter turns env this duration startDate endDate = Some result.
Proof.
  unfold generatePotentialSlots, generatedAfter. intros Hrun.
  apply runLoop_loopIter in Hrun.
  destruct Hrun as (turns & st' & Hiter & _ & <-).
  exists turns. rewrite Hiter. reflexivity.
Qed.

End Generation.

(** C4: for a strictly positive duration and any bounds the generation loop
    of [generatePotentialSlots] terminates, its cursor growing by the
    duration at each turn; positivity is needed, since a task's duration
    other than zero is used as it is, and with the opposite (negative)
    duration the loop never exits once entered. *)
Theorem generation_loop_terminates_for_positive_duration
    (env : Env) (this : t) (duration : Z) (startDate endDate : Date) :
  0 < duration ->
  (exists fuel0, forall fuel, (fuel0 <= fuel)%nat ->
     exists slots,
       generatePotentialSlots fuel env this duration startDate endDate = Some slots)
  /\ (forall localEndDate st st',
        loopStep duration localEndDate st = Some st' ->
        localCurrentStart st' = addMinutes (localCurrentStart st) duration
        /\ localCurrentStart st < localCurrentStart st')
  /\ (forall task d,
        Scheduling.duration task = Some d -> d <> 0 -> durationOrDefault task = d)
  /\ (forall localEndDate st fuel,
        localCurrentStart st < localEndDate ->
        runLoop fuel (- duration) localEndDate st = None).
Proof.
  intros Hpos. split; [|split; [|split]].
  - apply generatePotentialSlots_returns. exact Hpos.
  - intros localEndDate st st' Hstep.
    apply loopStep_Some in Hstep. destruct Hstep as (_ & -> & _).
    split; [reflexivity|]. unfold addMinutes, msPerMinute. lia.
  - intros task d Hd Hnz. unfold durationOrDefault. rewrite Hd.
    destruct (Z.eqb_spec d 0); [contradiction|reflexivity].
  - intros localEndDate st fuel Hlt. apply runLoop_diverges; [lia|exact Hlt].
Qed.

(** The loop for a 30 minute task over two hours, and for a task of minus
    30 minutes. *)
Lemma generation_loop_terminates_witness :
  (exists fuel0, forall fuel, (fuel0 <= fuel)%nat ->
     exists slots,
       generatePotentialSlots fuel
         (Fixture.env (Fixture.at_ Fixture.monday 9 0))
         (Fixture.manager Fixture.nineToFive Fixture.freeCalendar)
         30 (Fixture.at_ Fixture.monday 9 0) (Fixture.at_ Fixture.monday 11 0)
       = Some slots)
  /\ durationOrDefault (Fixture.taskOf (Some (-30))) = -30
  /\ forall fuel,
       runLoop fuel (- 30) (Fixture.at_ Fixture.monday 11 0)
         (mkLoopState (Fixture.at_ Fixture.monday 9 30) []) = None.
Proof.
  destruct (generation_loop_terminates_for_positive_duration
              (Fixture.env (Fixture.at_ Fixture.monday 9 0))
              (Fixture.manager Fixture.nineToFive Fixture.freeCalendar)
              30 (Fixture.at_ Fixture.monday 9 0) (Fixture.at_ Fixture.monday 11 0)
              ltac:(lia))
    as (Hreturns & _ & Hused & Hnever).
  split; [exact Hreturns|]. split.
  - apply Hused; [reflexivity|lia].
  - intros fuel. apply Hnever. vm_compute. reflexivity.
Defined.

(** ** The stages of the pipeline *)

Section Pipeline.

Variables (env : Env) (this : t).

Lemma filterByWorkHours_filter (slots : list TimeSlot) :
  filterByWorkHours env this slots
  = map (fun slot => set_isWithinWorkHours slot true)
      (filter (workHoursFilterResult env this) slots).
Proof.
  induction slots as [|slot rest IH]; simpl; [reflexivity|].
  destruct (workHoursFilterResult env this slot); simpl; rewrite IH; reflexivity.
Qed.

Lemma processResults_filter (batchResults : list BatchResult) :
  processResults batchResults = map resultSlot (filter noConflicts batchResults).
Proof.
  unfold processResults.
  enough (H : forall acc,
             fold_left
               (fun availableSlots result =>
                  if (List.length (resultConflicts result) =? 0)%nat
                  then availableSlots ++ [resultSlot result] else availableSlots)
               batchResults acc
             = acc ++ map resultSlot (filter noConflicts batchResults))
    by apply (H []).
  induction batchResults as [|result rest IH]; intros acc; simpl.
  - rewrite app_nil_r. reflexivity.
  - rewrite IH. unfold noConflicts at 2.
    destruct (List.length (resultConflicts result) =? 0)%nat; simpl.
    + rewrite <- app_assoc. reflexivity.
    + reflexivity.
Qed.

Lemma removeConflicts_run (slots : list TimeSlot) (task : Task) (st : ManagerState) :
  removeConflicts env this slots task st
  = (processResults (batchAnswer env this slots task),
     mkManagerState (scheduledTasks st)
       (calls st ++ [batchQuery env this slots task])).
Proof. reflexivity. Qed.

(** The whole pipeline, run from a state. *)
Lemma findAvailableSlots_run (fuel : nat) (task : Task) (startDate endDate : Date)
    (st : ManagerState) :
  findAvailableSlots fuel env this task startDate endDate st
  = match
      generatePotentialSlots fuel env this (durationOrDefault task) startDate endDate
    with
    | None =>
        (None,
         mkManagerState (filter isScheduledTask (prisma this))
           (calls st ++ [TaskFindMany]))
    | Some potentialSlots =>
        let workHourSlots := filterByWorkHours env this potentialSlots in
        (Some
           (sortByScore
              (map (scoreSlotsTo env this (filter isScheduledTask (prisma this)) task)
                 (applyBufferTimes env this
                    (processResults (batchAnswer env this workHourSlots task))))),
         mkManagerState (filter isScheduledTask (prisma this))
           ((calls st ++ [TaskFindMany])
            ++ [batchQuery env this workHourSlots task]))
    end.
Proof.
  unfold findAvailableSlots, bind. simpl.
  destruct (generatePotentialSlots fuel env this (durationOrDefault task)
              startDate endDate); reflexivity.
Qed.

End Pipeline.

(** ** Sorting by score *)

Section Sorting.

Let byScore (a b : TimeSlot) : Z := score b - score a.

Let scoreIs (v : Z) (slot : TimeSlot) : bool := score slot =? v.

Lemma sortInsert_Permutation {A} (compareFn : A -> A -> Z) (x : A) (l : list A) :
  Permutation (sortInsert compareFn x l) (x :: l).
Proof.
  induction l as [|y rest IH]; simpl; [reflexivity|].
  destruct (compareFn x y <=? 0); [reflexivity|].
  rewrite IH. apply perm_swap.
Qed.

Lemma sort_Permutation {A} (compareFn : A -> A -> Z) (l : list A) :
  Permutation (sort compareFn l) l.
Proof.
  induction l as [|x rest IH]; simpl; [reflexivity|].
  rewrite sortInsert_Permutation. constructor. exact IH.
Qed.

Lemma sortInsert_sorted (x : TimeSlot) (l : list TimeSlot) :
  StronglySorted (fun a b => score b <= score a) l ->
  StronglySorted (fun a b => score b <= score a) (sortInsert byScore x l).
Proof.
  induction 1 as [|y rest Hsorted IH Hall]; simpl.
  - repeat constructor.
  - unfold byScore at 1. destruct (Z.leb_spec (score y - score x) 0).
    + constructor; [constructor; assumption|].
      constructor; [lia|].
      eapply Forall_impl; [|exact Hall]. simpl. intros; lia.
    + constructor; [exact IH|].
      eapply Permutation_Forall; [symmetry; apply sortInsert_Permutation|].
      constructor; [lia|exact Hall].
Qed.

Lemma sortByScore_sorted (l : list TimeSlot) :
  StronglySorted (fun a b => score b <= score a) (sortByScore l).
Proof.
  unfold sortByScore, sort. induction l as [|x rest IH]; simpl.
  - constructor.
  - apply sortInsert_sorted. exact IH.
Qed.

(** The sort is stable: the slots of one score keep their order. *)
Lemma sortInsert_stable (v : Z) (x : TimeSlot) (l : list TimeSlot) :
  filter (scoreIs v) (sortInsert byScore x l) = filter (scoreIs v) (x :: l).
Proof.
  induction l as [|y rest IH]; [reflexivity|].
  simpl sortInsert. unfold byScore at 1.
  destruct (Z.leb_spec (score y - score x) 0); [reflexivity|].
  simpl in *. rewrite IH. unfold scoreIs.
  destruct (Z.eqb_spec (score x) v), (Z.eqb_spec (score y) v);
    try reflexivity; lia.
Qed.

Lemma sortByScore_stable (v : Z) (l : list TimeSlot) :
  filter (fun slot => score slot =? v) (sortByScore l)
  = filter (fun slot => score slot =? v) l.
Proof.
  unfold sortByScore, sort. induction l as [|x rest IH]; [reflexivity|].
  simpl fold_right. change (fun slot => score slot =? v) with (scoreIs v) in *.
  rewrite sortInsert_stable. simpl. rewrite IH. reflexivity.
Qed.

Lemma StronglySorted_adjacent {A} (R : A -> A -> Prop) (l : list A) :
  StronglySorted R l ->
  forall i a b, nth_error l i = Some a -> nth_error l (S i) = Some b -> R a b.
Proof.
  induction 1 as [|x rest Hsorted IH Hall]; intros i a b Ha Hb.
  - destruct i; discriminate.
  - destruct i as [|i]; simpl in *.
    + injection Ha as <-. rewrite Forall_forall in Hall.
      apply Hall. destruct rest; [discriminate|]. injection Hb as <-. left. reflexivity.
    + eapply IH; eassumption.
Qed.

Lemma StronglySorted_middle {A} (R : A -> A -> Prop) (l1 l2 l3 : list A) (a b : A) :
  StronglySorted R (l1 ++ a :: l2 ++ b :: l3) -> R a b.
Proof.
  induction l1 as [|x l1 IH]; simpl; intros Hsorted.
  - apply StronglySorted_inv in Hsorted. destruct Hsorted as (_ & Hall).
    rewrite Forall_forall in Hall. apply Hall.
    apply in_or_app. right. left. reflexivity.
  - apply StronglySorted_inv in Hsorted. apply IH. apply Hsorted.
Qed.

Lemma chronological_filter (keep : TimeSlot -> bool) (l : list TimeSlot) :
  chronological l -> chronological (filter keep l).
Proof.
  unfold chronological. induction l as [|x rest IH]; simpl; intros Hsorted.
  - constructor.
  - apply StronglySorted_inv in Hsorted. destruct Hsorted as (Hrest & Hall).
    destruct (keep x); simpl; [|auto].
    constructor; [auto|].
    rewrite Forall_map in *. rewrite Forall_forall in *.
    intros y Hy. apply Hall. apply filter_In in Hy. apply Hy.
Qed.

Lemma nth_error_two_split {A} (l : list A) (i j : nat) (a b : A) :
  (i < j)%nat -> nth_error l i = Some a -> nth_error l j = Some b ->
  exists l1 l2 l3, l = l1 ++ a :: l2 ++ b :: l3.
Proof.
  intros Hlt Ha Hb.
  destruct (nth_error_split l i Ha) as (l1 & tail & -> & Hlen).
  rewrite nth_error_app2 in Hb by lia.
  replace (j - List.length l1)%nat with (S (j - S i))%nat in Hb by lia.
  simpl in Hb.
  destruct (nth_error_split tail _ Hb) as (l2 & l3 & -> & _).
  eauto.
Qed.

(** Among the slots of one score, a chronological input stays so. *)
Lemma sortByScore_ties (l : list TimeSlot) :
  chronological l ->
  forall i j a b,
    (i < j)%nat ->
    nth_error (sortByScore l) i = Some a ->
    nth_error (sortByScore l) j = Some b ->
    score a = score b ->
    start a < start b.
Proof.
  intros Hchrono i j a b Hlt Ha Hb Hscore.
  destruct (nth_error_two_split _ _ _ _ _ Hlt Ha Hb) as (l1 & l2 & l3 & Hout).
  assert (Hstable := sortByScore_stable (score a) l).
  rewrite Hout in Hstable.
  rewrite filter_app in Hstable. simpl in Hstable.
  rewrite Z.eqb_refl in Hstable.
  rewrite filter_app in Hstable. simpl in Hstable.
  rewrite <- Hscore, Z.eqb_refl in Hstable.
  apply (chronological_filter (fun slot => score slot =? score a)) in Hchrono.
  rewrite <- Hstable in Hchrono. unfold chronological in Hchrono.
  rewrite map_app in Hchrono. simpl in Hchrono.
  rewrite map_app in Hchrono. simpl in Hchrono.
  apply StronglySorted_middle in Hchrono. exact Hchrono.
Qed.

End Sorting.

(** ** What the pipeline returns *)

Lemma StronglySorted_map_filter {A B} (R : B -> B -> Prop) (f : A -> B)
    (keep : A -> bool) (l : list A) :
  StronglySorted R (map f l) -> StronglySorted R (map f (filter keep l)).
Proof.
  induction l as [|x rest IH]; simpl; intros Hsorted.
  - constructor.
  - apply StronglySorted_inv in Hsorted. destruct Hsorted as (Hrest & Hall).
    destruct (keep x); simpl; [|auto].
    constructor; [auto|].
    rewrite Forall_map in *. rewrite Forall_forall in *.
    intros y Hy. apply Hall. apply filter_In in Hy. apply Hy.
Qed.

Section PipelineResults.

Variables (env : Env) (this : t) (task : Task).

Hypothesis service_answers : answersEachSlot (calendarService this).

Lemma batchAnswer_slots (slots : list TimeSlot) :
  map resultSlot (batchAnswer env this slots task) = slots.
Proof.
  unfold batchAnswer. rewrite service_answers, map_map. simpl. apply map_id.
Qed.

Lemma chronological_filterByWorkHours (slots : list TimeSlot) :
  chronological slots -> chronological (filterByWorkHours env this slots).
Proof.
  unfold chronological. rewrite filterByWorkHours_filter, map_map. simpl.
  apply StronglySorted_map_filter.
Qed.

Lemma chronological_processResults (slots : list TimeSlot) :
  chronological slots ->
  chronological (processResults (batchAnswer env this slots task)).
Proof.
  unfold chronological. rewrite processResults_filter, map_map.
  intros Hsorted. apply StronglySorted_map_filter.
  rewrite <- map_map, batchAnswer_slots. exact Hsorted.
Qed.

Lemma chronological_applyBufferTimes (slots : list TimeSlot) :
  chronological slots -> chronological (applyBufferTimes env this slots).
Proof. unfold chronological, applyBufferTimes. rewrite map_map. simpl. auto. Qed.

Lemma chronological_scoreSlotsTo (tasks : list Task) (slots : list TimeSlot) :
  chronological slots -> chronological (map (scoreSlotsTo env this tasks task) slots).
Proof. unfold chronological. rewrite map_map. simpl. auto. Qed.

(** A slot that passed conflict removal is a work-hour slot for which the
    service reported no conflict. *)
Lemma processResults_In (slots : list TimeSlot) (slot : TimeSlot) :
  In slot (processResults (batchAnswer env this slots task)) <->
  exists result,
    In result (batchAnswer env this slots task)
    /\ resultSlot result = slot /\ resultConflicts result = [].
Proof.
  rewrite processResults_filter, in_map_iff. split.
  - intros (result & Hslot & Hin). apply filter_In in Hin.
    destruct Hin as (Hin & Hnone). exists result. repeat split; auto.
    unfold noConflicts in Hnone. destruct (resultConflicts result); [reflexivity|].
    discriminate.
  - intros (result & Hin & Hslot & Hnone). exists result. split; [exact Hslot|].
    apply filter_In. split; [exact Hin|]. unfold noConflicts. rewrite Hnone.
    reflexivity.
Qed.

Lemma processResults_incl (slots : list TimeSlot) (slot : TimeSlot) :
  In slot (processResults (batchAnswer env this slots task)) -> In slot slots.
Proof.
  intros Hin. apply processResults_In in Hin.
  destruct Hin as (result & Hin & <- & _).
  apply (in_map resultSlot) in Hin. rewrite batchAnswer_slots in Hin. exact Hin.
Qed.

(** Where a slot of the output comes from. *)
Lemma findAvailableSlots_origin (fuel : nat) (startDate endDate : Date)
    (st : ManagerState) (output : list TimeSlot) :
  resultOf (findAvailableSlots fuel env this task startDate endDate) st
  = Some output ->
  exists potentialSlots,
    generatePotentialSlots fuel env this (durationOrDefault task) startDate endDate
    = Some potentialSlots
    /\ forall slot, In slot output ->
         exists generated,
           In generated potentialSlots
           /\ workHoursFilterResult env this generated = true
           /\ In (set_isWithinWorkHours generated true)
                (processResults
                   (batchAnswer env this
                      (filterByWorkHours env this potentialSlots) task))
           /\ slot =
              scoreSlotsTo env this (filter isScheduledTask (prisma this)) task
                (applyBufferTimesTo env this (set_isWithinWorkHours generated true)).
Proof.
  unfold resultOf. rewrite findAvailableSlots_run.
  destruct (generatePotentialSlots fuel env this (durationOrDefault task)
              startDate endDate) as [potentialSlots|]; [|discriminate].
  simpl. intros [= <-]. exists potentialSlots. split; [reflexivity|].
  intros slot Hin.
  apply (Permutation_in _ (sort_Permutation _ _)) in Hin.
  apply in_map_iff in Hin. destruct Hin as (buffered & <- & Hin).
  apply in_map_iff in Hin. destruct Hin as (kept & <- & Hin).
  assert (Hws := processResults_incl _ _ Hin).
  rewrite filterByWorkHours_filter in Hws.
  apply in_map_iff in Hws. destruct Hws as (generated & <- & Hgen).
  apply filter_In in Hgen. destruct Hgen as (Hgen & Hpass).
  exists generated. auto.
Qed.

(** The output of a call that returns is ranked from a chronological
    sequence. *)
Lemma findAvailableSlots_sorted_from (fuel : nat) (startDate endDate : Date)
    (st : ManagerState) (output : list TimeSlot) :
  resultOf (findAvailableSlots fuel env this task startDate endDate) st
  = Some output ->
  exists scoredSlots,
    output = sortByScore scoredSlots /\ chronological scoredSlots.
Proof.
  unfold resultOf. rewrite findAvailableSlots_run.
  destruct (generatePotentialSlots fuel env this (durationOrDefault task)
              startDate endDate) as [potentialSlots|] eqn:Hgen; [|discriminate].
  simpl. intros [= <-]. eexists. split; [reflexivity|].
  apply chronological_scoreSlotsTo, chronological_applyBufferTimes,
    chronological_processResults, chronological_filterByWorkHours.
  apply generatePotentialSlots_slots in Hgen. apply Hgen.
Qed.

End PipelineResults.

(** ** The duration of the generated slots *)

Lemma durationOrDefault_positive (task : Task) :
  (forall d, Scheduling.duration task = Some d -> 0 <= d) ->
  0 < durationOrDefault task /\ durationOrDefault task = specDuration task.
Proof.
  unfold durationOrDefault, specDuration, DEFAULT_TASK_DURATION.
  destruct (Scheduling.duration task) as [d|]; intros Hd; [|lia].
  specialize (Hd d eq_refl).
  destruct (Z.eqb_spec d 0), (Z.leb_spec d 0); lia.
Qed.

Lemma findAvailableSlots_returns (env : Env) (this : t) (task : Task)
    (startDate endDate : Date) :
  0 < durationOrDefault task ->
  exists fuel0, forall fuel, (fuel0 <= fuel)%nat ->
    forall st, exists output,
      resultOf (findAvailableSlots fuel env this task startDate endDate) st
      = Some output.
Proof.
  intros Hpos.
  destruct (generatePotentialSlots_returns env this _ startDate endDate Hpos)
    as (fuel0 & Hfuel0).
  exists fuel0. intros fuel Hfuel st. destruct (Hfuel0 fuel Hfuel) as (l & Hl).
  unfold resultOf. rewrite findAvailableSlots_run, Hl. simpl. eauto.
Qed.

(** C3, amended: for a task whose duration is unset, zero or positive, a
    call of [findAvailableSlots] returns, and every slot it generates, and
    every slot it returns, has [start < end] and [end - start] equal to the
    task's duration in minutes, where an unset or zero duration is replaced
    by the default of 30.  A negative duration is not replaced. *)
Theorem generated_slots_last_the_task_duration
    (env : Env) (this : t) (task : Task) (startDate endDate : Date) :
  answersEachSlot (calendarService this) ->
  (forall d, Scheduling.duration task = Some d -> 0 <= d) ->
  durationOrDefault task = specDuration task
  /\ (exists fuel0, forall fuel, (fuel0 <= fuel)%nat ->
        forall st, exists output,
          resultOf (findAvailableSlots fuel env this task startDate endDate) st
          = Some output)
  /\ (forall turns generated,
        generatedAfter turns env this (durationOrDefault task) startDate endDate
        = Some generated ->
        Forall (lastsMinutes (specDuration task)) generated)
  /\ (forall fuel potentialSlots,
        generatePotentialSlots fuel env this (durationOrDefault task)
          startDate endDate = Some potentialSlots ->
        Forall (lastsMinutes (specDuration task)) potentialSlots)
  /\ (forall fuel st output,
        resultOf (findAvailableSlots fuel env this task startDate endDate) st
        = Some output ->
        Forall (lastsMinutes (specDuration task)) output)
  /\ (forall other d,
        Scheduling.duration other = Some d -> d < 0 -> durationOrDefault other = d).
Proof.
  intros Hservice Hduration.
  destruct (durationOrDefault_positive task Hduration) as (Hpos & Hspec).
  assert (Hturns :
            forall turns generated,
              generatedAfter turns env this (durationOrDefault task)
                startDate endDate = Some generated ->
              Forall (lastsMinutes (specDuration task)) generated).
  { intros turns generated. unfold generatedAfter.
    destruct (loopIter turns _ _ _) as [st'|] eqn:Hiter; [|discriminate].
    simpl. intros [= <-].
    apply loopIter_slots in Hiter. destruct Hiter as (added & -> & Hall).
    simpl. eapply Forall_impl; [|exact Hall]. simpl.
    intros slot Hlen. rewrite <- Hspec. unfold lastsMinutes.
    split; [|exact Hlen]. unfold msPerMinute in *. lia. }
  assert (Hgenerated :
            forall fuel potentialSlots,
              generatePotentialSlots fuel env this (durationOrDefault task)
                startDate endDate = Some potentialSlots ->
              Forall (lastsMinutes (specDuration task)) potentialSlots).
  { intros fuel potentialSlots Hgen.
    apply generatePotentialSlots_slots in Hgen. destruct Hgen as (Hall & _).
    eapply Forall_impl; [|exact Hall]. simpl.
    intros slot (_ & _ & Hlen & _). rewrite <- Hspec. unfold lastsMinutes.
    split; [|exact Hlen]. unfold msPerMinute in *. lia. }
  split; [exact Hspec|].
  split; [|split; [exact Hturns|split; [exact Hgenerated|split]]].
  - apply findAvailableSlots_returns. exact Hpos.
  - intros fuel st output Hout. apply Forall_forall. intros slot Hin.
    destruct (findAvailableSlots_origin env this task Hservice _ _ _ _ _ Hout)
      as (potentialSlots & Hgen & Horigin).
    destruct (Horigin slot Hin) as (generated & Hgenerated_in & _ & _ & ->).
    apply Hgenerated in Hgen. rewrite Forall_forall in Hgen.
    apply (Hgen generated Hgenerated_in).
  - intros other d Hd Hneg. unfold durationOrDefault. rewrite Hd.
    destruct (Z.eqb_spec d 0); [lia|reflexivity].
Qed.

(** A task without a duration, scheduled on a Monday morning: the call
    returns slots of 30 minutes. *)
Lemma generated_slots_last_the_task_duration_witness :
  durationOrDefault (Fixture.taskOf None) = 30
  /\ exists fuel output,
       resultOf
         (findAvailableSlots fuel
            (Fixture.env (Fixture.at_ Fixture.monday 9 0))
            (Fixture.manager Fixture.nineToFive Fixture.freeCalendar)
            (Fixture.taskOf None)
            (Fixture.at_ Fixture.monday 9 0) (Fixture.at_ Fixture.monday 11 0))
         Fixture.idle = Some output
       /\ Forall (lastsMinutes 30) output.
Proof.
  destruct (generated_slots_last_the_task_duration
              (Fixture.env (Fixture.at_ Fixture.monday 9 0))
              (Fixture.manager Fixture.nineToFive Fixture.freeCalendar)
              (Fixture.taskOf None)
              (Fixture.at_ Fixture.monday 9 0) (Fixture.at_ Fixture.monday 11 0))
    as (Hspec & (fuel0 & Hreturns) & _ & _ & Houtput & _).
  - intros slotsToCheck calendars taskId. simpl. unfold Fixture.answer.
    rewrite map_map. reflexivity.
  - simpl. discriminate.
  - split; [reflexivity|].
    destruct (Hreturns fuel0 (Nat.le_refl _) Fixture.idle) as (output & Hout).
    exists fuel0, output. split; [exact Hout|].
    apply (Houtput _ _ _ Hout).
Defined.

(** C3 as stated fails on a task with a negative duration: the duration is
    used as it is, the first turn of the loop pushes a slot that ends before
    it starts, and the call never returns. *)
Lemma generated_slots_duration_counterexample :
  let env := Fixture.env (Fixture.at_ Fixture.monday 9 0) in
  let this := Fixture.manager Fixture.nineToFive Fixture.freeCalendar in
  let task := Fixture.taskOf (Some (-30)) in
  let startDate := Fixture.at_ Fixture.monday 9 0 in
  let endDate := Fixture.at_ Fixture.monday 11 0 in
  specDuration task = 30
  /\ durationOrDefault task = -30
  /\ generatedAfter 1 env this (durationOrDefault task) startDate endDate
     = Some [Fixture.slotAt (Fixture.at_ Fixture.monday 9 30)
               (Fixture.at_ Fixture.monday 9 0)]
  /\ (forall fuel st,
        resultOf (findAvailableSlots fuel env this task startDate endDate) st = None)
  /\ ~ everyGeneratedSlotLasts specDuration.
Proof.
  intros env this task startDate endDate.
  assert (Hfirst :
            generatedAfter 1 env this (durationOrDefault task) startDate endDate
            = Some [Fixture.slotAt (Fixture.at_ Fixture.monday 9 30)
                      (Fixture.at_ Fixture.monday 9 0)])
    by (vm_compute; reflexivity).
  split; [reflexivity|]. split; [reflexivity|]. split; [exact Hfirst|]. split.
  - intros fuel st. unfold resultOf. rewrite findAvailableSlots_run.
    unfold generatePotentialSlots. rewrite runLoop_diverges.
    + reflexivity.
    + vm_compute. discriminate.
    + vm_compute. reflexivity.
  - intros Hclaim. specialize (Hclaim env this task startDate endDate 1%nat _ Hfirst).
    apply Forall_inv in Hclaim. destruct Hclaim as (Hlt & _).
    vm_compute in Hlt. discriminate.
Qed.

(** ** Work hours *)

Section WorkHours.

Variables (env : Env) (this : t).

Lemma includes_In (l : list Z) (x : Z) : includes l x = true <-> In x l.
Proof.
  unfold includes. rewrite existsb_exists. split.
  - intros (y & Hin & Heq). apply Z.eqb_eq in Heq. subst. exact Hin.
  - intros Hin. exists x. split; [exact Hin|apply Z.eqb_refl].
Qed.

Lemma workHoursFilterResult_rule (slot : TimeSlot) :
  workHoursFilterResult env this slot = true <-> workHoursRule env this slot.
Proof.
  unfold workHoursFilterResult, workHoursRule. cbv zeta.
  rewrite !andb_true_iff, includes_In, Z.geb_le, Z.leb_le, Z.ltb_lt.
  intuition lia.
Qed.

(** The method and the callback of the filter apply one rule. *)
Lemma isWithinWorkHours_filter (slot : TimeSlot) :
  isWithinWorkHours env this slot = workHoursFilterResult env this slot.
Proof.
  unfold isWithinWorkHours, workHoursFilterResult. cbv zeta.
  destruct (includes _ _); reflexivity.
Qed.

Lemma isWithinWorkHours_rule (slot : TimeSlot) :
  isWithinWorkHours env this slot = true <-> workHoursRule env this slot.
Proof. rewrite isWithinWorkHours_filter. apply workHoursFilterResult_rule. Qed.

(** The rule reads the start and the end of a slot only. *)
Lemma workHoursFilterResult_interval (a b : TimeSlot) :
  start a = start b -> end_ a = end_ b ->
  workHoursFilterResult env this a = workHoursFilterResult env this b.
Proof. unfold workHoursFilterResult. intros -> ->. reflexivity. Qed.

End WorkHours.

(** C5: the work-hour filter keeps a candidate slot if and only if, in the
    viewer's local time, the weekday of its start is a work day, its start
    hour is at least [workHourStart], its end hour at most [workHourEnd]
    and its start hour strictly before [workHourEnd]; a kept slot has its
    flag [isWithinWorkHours] up, and a slot that fails is not in the output. *)
Theorem work_hour_filter_keeps_exactly_the_rule
    (env : Env) (this : t) (slots : list TimeSlot) :
  (forall kept,
     In kept (filterByWorkHours env this slots) <->
     exists slot,
       In slot slots /\ workHoursRule env this slot
       /\ kept = set_isWithinWorkHours slot true)
  /\ Forall (fun kept => Scheduling.isWithinWorkHours kept = true)
       (filterByWorkHours env this slots)
  /\ (forall slot,
        In slot slots -> ~ workHoursRule env this slot ->
        forall kept,
          In kept (filterByWorkHours env this slots) ->
          ~ (start kept = start slot /\ end_ kept = end_ slot))
  /\ map start (filterByWorkHours env this slots)
     = map start (filter (workHoursFilterResult env this) slots)
  /\ List.length (filterByWorkHours env this slots)
     = List.length (filter (workHoursFilterResult env this) slots).
Proof.
  assert (Hiff : forall kept,
             In kept (filterByWorkHours env this slots) <->
             exists slot,
               In slot slots /\ workHoursRule env this slot
               /\ kept = set_isWithinWorkHours slot true).
  { intros kept. rewrite filterByWorkHours_filter, in_map_iff. split.
    - intros (slot & <- & Hin). apply filter_In in Hin.
      destruct Hin as (Hin & Hpass). apply workHoursFilterResult_rule in Hpass.
      eauto.
    - intros (slot & Hin & Hrule & ->). exists slot. split; [reflexivity|].
      apply filter_In. split; [exact Hin|].
      apply workHoursFilterResult_rule. exact Hrule. }
  split; [exact Hiff|]. split; [|split; [|split]].
  - apply Forall_forall. intros kept Hin. apply Hiff in Hin.
    destruct Hin as (slot & _ & _ & ->). reflexivity.
  - intros slot _ Hfails kept Hin (Hstart & Hend). apply Hiff in Hin.
    destruct Hin as (origin & _ & Hrule & ->). simpl in *.
    apply Hfails. apply workHoursFilterResult_rule.
    rewrite (workHoursFilterResult_interval env this slot origin) by congruence.
    apply workHoursFilterResult_rule. exact Hrule.
  - rewrite filterByWorkHours_filter, map_map. reflexivity.
  - rewrite filterByWorkHours_filter, length_map. reflexivity.
Qed.

(** Monday 09:00-09:30 is kept with its flag up; Monday 08:30-09:00 and
    Monday 17:00-17:30 fail and are dropped. *)
Lemma work_hour_filter_witness :
  filterByWorkHours
    (Fixture.env (Fixture.at_ Fixture.monday 9 0))
    (Fixture.manager Fixture.nineToFive Fixture.freeCalendar)
    [Fixture.slotAt (Fixture.at_ Fixture.monday 8 30) (Fixture.at_ Fixture.monday 9 0);
     Fixture.slotAt (Fixture.at_ Fixture.monday 9 0) (Fixture.at_ Fixture.monday 9 30);
     Fixture.slotAt (Fixture.at_ Fixture.monday 17 0) (Fixture.at_ Fixture.monday 17 30)]
  = [set_isWithinWorkHours
       (Fixture.slotAt (Fixture.at_ Fixture.monday 9 0) (Fixture.at_ Fixture.monday 9 30))
       true]
  /\ In (set_isWithinWorkHours
          (Fixture.slotAt (Fixture.at_ Fixture.monday 9 0) (Fixture.at_ Fixture.monday 9 30))
          true)
       (filterByWorkHours
          (Fixture.env (Fixture.at_ Fixture.monday 9 0))
          (Fixture.manager Fixture.nineToFive Fixture.freeCalendar)
          [Fixture.slotAt (Fixture.at_ Fixture.monday 8 30) (Fixture.at_ Fixture.monday 9 0);
           Fixture.slotAt (Fixture.at_ Fixture.monday 9 0) (Fixture.at_ Fixture.monday 9 30);
           Fixture.slotAt (Fixture.at_ Fixture.monday 17 0) (Fixture.at_ Fixture.monday 17 30)]).
Proof.
  split; [vm_compute; reflexivity|].
  apply (proj1 (work_hour_filter_keeps_exactly_the_rule _ _ _)).
  exists (Fixture.slotAt (Fixture.at_ Fixture.monday 9 0) (Fixture.at_ Fixture.monday 9 30)).
  split; [simpl; auto|]. split; [|reflexivity].
  unfold workHoursRule. vm_compute. intuition discriminate.
Defined.

(** ** Buffers *)

(** C9: [calculateBufferTimes] gives a [beforeBuffer] from the slot's start
    less [bufferMinutes] to the slot's start, and an [afterBuffer] from the
    slot's end to the slot's end plus [bufferMinutes]; the flag
    [isWithinWorkHours] of each is the work-hours rule on the buffer, and
    its list of conflicts is empty.  The buffer stage sets [hasBufferTime]
    exactly when both buffers are within work hours, changes nothing else
    and removes no slot. *)
Theorem buffers_span_and_tagging (env : Env) (this : t) :
  (forall slot,
     let buffers := calculateBufferTimes env this slot in
     start (beforeBuffer buffers)
       = addMinutes (start slot) (- bufferMinutes (settings this))
     /\ end_ (beforeBuffer buffers) = start slot
     /\ start (afterBuffer buffers) = end_ slot
     /\ end_ (afterBuffer buffers)
        = addMinutes (end_ slot) (bufferMinutes (settings this))
     /\ end_ (beforeBuffer buffers) - start (beforeBuffer buffers)
        = bufferMinutes (settings this) * msPerMinute
     /\ end_ (afterBuffer buffers) - start (afterBuffer buffers)
        = bufferMinutes (settings this) * msPerMinute
     /\ Scheduling.isWithinWorkHours (beforeBuffer buffers)
        = workHoursFilterResult env this (beforeBuffer buffers)
     /\ Scheduling.isWithinWorkHours (afterBuffer buffers)
        = workHoursFilterResult env this (afterBuffer buffers)
     /\ (Scheduling.isWithinWorkHours (beforeBuffer buffers) = true
         <-> workHoursRule env this (beforeBuffer buffers))
     /\ (Scheduling.isWithinWorkHours (afterBuffer buffers) = true
         <-> workHoursRule env this (afterBuffer buffers))
     /\ conflicts (beforeBuffer buffers) = []
     /\ conflicts (afterBuffer buffers) = []
     /\ (hasBufferTime (applyBufferTimesTo env this slot) = true
         <-> workHoursRule env this (beforeBuffer buffers)
             /\ workHoursRule env this (afterBuffer buffers))
     /\ applyBufferTimesTo env this slot
        = set_hasBufferTime slot (hasBufferTime (applyBufferTimesTo env this slot)))
  /\ (forall slots,
        List.length (applyBufferTimes env this slots) = List.length slots
        /\ forall i,
             nth_error (applyBufferTimes env this slots) i
             = option_map (applyBufferTimesTo env this) (nth_error slots i)).
Proof.
  split.
  - intros slot buffers.
    assert (Hbefore : Scheduling.isWithinWorkHours (beforeBuffer buffers)
                      = workHoursFilterResult env this (beforeBuffer buffers)).
    { subst buffers. simpl. rewrite isWithinWorkHours_filter.
      apply workHoursFilterResult_interval; reflexivity. }
    assert (Hafter : Scheduling.isWithinWorkHours (afterBuffer buffers)
                     = workHoursFilterResult env this (afterBuffer buffers)).
    { subst buffers. simpl. rewrite isWithinWorkHours_filter.
      apply workHoursFilterResult_interval; reflexivity. }
    do 4 (split; [reflexivity|]).
    do 2 (split; [subst buffers; simpl; unfold addMinutes; lia|]).
    split; [exact Hbefore|]. split; [exact Hafter|].
    split; [rewrite Hbefore; apply workHoursFilterResult_rule|].
    split; [rewrite Hafter; apply workHoursFilterResult_rule|].
    do 2 (split; [reflexivity|]).
    split; [|reflexivity].
    unfold applyBufferTimesTo. cbv zeta. fold buffers.
    unfold set_hasBufferTime, hasBufferTime.
    rewrite andb_true_iff, Hbefore, Hafter, !workHoursFilterResult_rule.
    reflexivity.
  - intros slots. unfold applyBufferTimes. split.
    + apply length_map.
    + intros i. apply nth_error_map.
Qed.

(** The buffer case of the specification: with [bufferMinutes] 15, a slot
    of Monday 10:00-10:30 has the buffers 09:45-10:00 and 10:30-10:45, both
    within work hours; the slot of 09:00-09:30 has its buffer before outside
    of them. *)
Lemma buffer_case_example :
  let env := Fixture.env (Fixture.at_ Fixture.monday 9 0) in
  let this := Fixture.manager Fixture.nineToFive Fixture.freeCalendar in
  let ten := Fixture.slotAt (Fixture.at_ Fixture.monday 10 0)
               (Fixture.at_ Fixture.monday 10 30) in
  let nine := Fixture.slotAt (Fixture.at_ Fixture.monday 9 0)
                (Fixture.at_ Fixture.monday 9 30) in
  calculateBufferTimes env this ten
  = mkBufferTimes
      (set_isWithinWorkHours
         (Fixture.slotAt (Fixture.at_ Fixture.monday 9 45)
            (Fixture.at_ Fixture.monday 10 0)) true)
      (set_isWithinWorkHours
         (Fixture.slotAt (Fixture.at_ Fixture.monday 10 30)
            (Fixture.at_ Fixture.monday 10 45)) true)
  /\ applyBufferTimes env this [nine; ten]
     = [set_hasBufferTime nine false; set_hasBufferTime ten true].
Proof. vm_compute. split; reflexivity. Qed.

(** ** Conflict removal *)

Lemma skipn_length_app {A} (l added : list A) :
  skipn (List.length l) (l ++ added) = added.
Proof. induction l as [|x l IH]; simpl; auto. Qed.

(** [removeConflicts] makes one batched query, whatever the settings. *)
Lemma removeConflicts_calls (env : Env) (this : t) (slots : list TimeSlot)
    (task : Task) (st : ManagerState) :
  callsOf (removeConflicts env this slots task) st = [batchQuery env this slots task].
Proof.
  unfold callsOf. rewrite removeConflicts_run. simpl. apply skipn_length_app.
Qed.

(** In a list sorted strictly by a key, the key names the element. *)
Lemma StronglySorted_key_inj {A} (f : A -> Z) (l : list A) :
  StronglySorted Z.lt (map f l) ->
  forall a b, In a l -> In b l -> f a = f b -> a = b.
Proof.
  induction l as [|x rest IH]; simpl; intros Hsorted a b Ha Hb Hkey; [contradiction|].
  apply StronglySorted_inv in Hsorted. destruct Hsorted as (Hrest & Hall).
  rewrite Forall_map, Forall_forall in Hall.
  destruct Ha as [<-|Ha], Hb as [<-|Hb].
  - reflexivity.
  - specialize (Hall _ Hb). lia.
  - specialize (Hall _ Ha). lia.
  - apply IH; assumption.
Qed.

Section ConflictRemoval.

Variables (env : Env) (this : t) (task : Task).

Hypothesis service_answers : answersEachSlot (calendarService this).

(** Among chronological slots, no kept slot starts when a slot reported
    with conflicts does. *)
Lemma conflicting_slot_not_kept (slots : list TimeSlot) (result : BatchResult) :
  chronological slots ->
  In result (batchAnswer env this slots task) ->
  resultConflicts result <> [] ->
  forall kept,
    In kept (processResults (batchAnswer env this slots task)) ->
    start kept <> start (resultSlot result).
Proof.
  intros Hchrono Hin Hconflicts kept Hkept Hstart.
  apply processResults_In in Hkept.
  destruct Hkept as (other & Hother & <- & Hnone).
  assert (Hsame : other = result).
  { apply (StronglySorted_key_inj (fun r => start (resultSlot r))
             (batchAnswer env this slots task)); try assumption.
    rewrite <- (map_map resultSlot start), batchAnswer_slots by assumption.
    exact Hchrono. }
  subst other. contradiction.
Qed.

End ConflictRemoval.

(** C6: a slot for which the batched query reports conflicts is not in the
    output of the removal stage, is not among the slots passed to scoring,
    and no slot of the final output of [findAvailableSlots] is that slot;
    a slot reported without conflicts is kept by the removal stage as it
    is, in its place. *)
Theorem conflicting_slots_are_dropped (env : Env) (this : t) (task : Task) :
  answersEachSlot (calendarService this) ->
  (forall slots st,
     resultOf (removeConflicts env this slots task) st
     = map resultSlot (filter noConflicts (batchAnswer env this slots task))
     /\ (forall result,
           In result (batchAnswer env this slots task) ->
           resultConflicts result = [] ->
           In (resultSlot result)
              (resultOf (removeConflicts env this slots task) st))
     /\ (chronological slots ->
         forall result,
           In result (batchAnswer env this slots task) ->
           resultConflicts result <> [] ->
           In (resultSlot result) slots
           /\ ~ In (resultSlot result)
                (resultOf (removeConflicts env this slots task) st)))
  /\ (forall fuel startDate endDate st potentialSlots output,
        generatePotentialSlots fuel env this (durationOrDefault task)
          startDate endDate = Some potentialSlots ->
        resultOf (findAvailableSlots fuel env this task startDate endDate) st
        = Some output ->
        forall result,
          In result
             (batchAnswer env this (filterByWorkHours env this potentialSlots) task) ->
          resultConflicts result <> [] ->
          (forall passed,
             In passed
                (applyBufferTimes env this
                   (resultOf
                      (removeConflicts env this
                         (filterByWorkHours env this potentialSlots) task) st)) ->
             start passed <> start (resultSlot result))
          /\ (forall slot, In slot output -> start slot <> start (resultSlot result))).
Proof.
  intros Hservice. split.
  - intros slots st. unfold resultOf. rewrite removeConflicts_run. simpl.
    split; [apply processResults_filter|]. split.
    + intros result Hin Hnone.
      apply (proj2 (processResults_In env this task slots _)).
      eauto.
    + intros Hchrono result Hin Hconflicts. split.
      * apply (in_map resultSlot) in Hin.
        rewrite batchAnswer_slots in Hin by assumption. exact Hin.
      * intros Hkept.
        apply (conflicting_slot_not_kept env this task Hservice slots result
                 Hchrono Hin Hconflicts _ Hkept).
        reflexivity.
  - intros fuel startDate endDate st potentialSlots output Hgen Hout result
      Hin Hconflicts.
    assert (Hchrono : chronological (filterByWorkHours env this potentialSlots)).
    { apply chronological_filterByWorkHours.
      apply generatePotentialSlots_slots in Hgen. apply Hgen. }
    assert (Hkept := conflicting_slot_not_kept env this task Hservice _ result
                       Hchrono Hin Hconflicts).
    split.
    + intros passed Hpassed. unfold resultOf in Hpassed.
      rewrite removeConflicts_run in Hpassed. simpl in Hpassed.
      apply in_map_iff in Hpassed. destruct Hpassed as (kept & <- & Hin_kept).
      simpl. apply Hkept. exact Hin_kept.
    + intros slot Hslot.
      destruct (findAvailableSlots_origin env this task Hservice _ _ _ _ _ Hout)
        as (potentialSlots' & Hgen' & Horigin).
      rewrite Hgen in Hgen'. injection Hgen' as <-.
      destruct (Horigin slot Hslot) as (generated & _ & _ & Hin_kept & ->).
      simpl. apply (Hkept _ Hin_kept).
Qed.

(** A Monday morning with a meeting from 10:00 to 10:30: of the slots of
    09:30, 10:00 and 10:30, the one of 10:00 is dropped. *)
Lemma conflicting_slots_are_dropped_witness :
  let env := Fixture.env (Fixture.at_ Fixture.monday 9 0) in
  let this :=
    Fixture.manager (Fixture.nineToFiveWith "[work]")
      (Fixture.busyBetween (Fixture.at_ Fixture.monday 10 0)
         (Fixture.at_ Fixture.monday 10 30)) in
  let task := Fixture.taskOf (Some 30) in
  let output :=
    resultOf
      (findAvailableSlots 10 env this task
         (Fixture.at_ Fixture.monday 9 0) (Fixture.at_ Fixture.monday 11 0))
      Fixture.idle in
  option_map (map start) output
  = Some [Fixture.at_ Fixture.monday 9 30; Fixture.at_ Fixture.monday 10 30]
  /\ forall slots slot,
       output = Some slots -> In slot slots ->
       start slot <> Fixture.at_ Fixture.monday 10 0.
Proof.
  intros env this task output. split; [vm_compute; reflexivity|].
  intros slots slot Hout Hin.
  assert (Hservice : answersEachSlot (calendarService this)).
  { intros slotsToCheck calendars taskId. simpl. unfold Fixture.answer.
    rewrite map_map. reflexivity. }
  destruct (conflicting_slots_are_dropped env this task Hservice) as (_ & Hfinal).
  destruct (generatePotentialSlots 10 env this (durationOrDefault task)
              (Fixture.at_ Fixture.monday 9 0) (Fixture.at_ Fixture.monday 11 0))
    as [potentialSlots|] eqn:Hgen; [|vm_compute in Hgen; discriminate].
  refine (proj2 (Hfinal _ _ _ _ _ _ Hgen Hout
                   (mkBatchResult
                      (set_isWithinWorkHours
                         (Fixture.slotAt (Fixture.at_ Fixture.monday 10 0)
                            (Fixture.at_ Fixture.monday 10 30)) true)
                      [Fixture.meeting (Fixture.at_ Fixture.monday 10 0)
                         (Fixture.at_ Fixture.monday 10 30)])
                   _ _) slot Hin).
  - vm_compute in Hgen. injection Hgen as <-. vm_compute. auto.
  - simpl. discriminate.
Defined.

(** ** Ranking *)

Lemma sortByScore_ranked (slots : list TimeSlot) : rankedByScore (sortByScore slots).
Proof.
  intros i a b Ha Hb.
  assert (H := StronglySorted_adjacent _ _ (sortByScore_sorted slots) i a b Ha Hb).
  simpl in H. lia.
Qed.

(** C7: the sequence that [findAvailableSlots] returns is ranked by
    decreasing score, every adjacent pair having [score i >= score (i+1)];
    the sort is stable, the slots of one score keeping the order they come
    in; that order is chronological, so that of two slots of one score the
    earlier one comes first. *)
Theorem output_is_ranked_by_score_and_stable (env : Env) (this : t) (task : Task) :
  answersEachSlot (calendarService this) ->
  (forall slots,
     rankedByScore (sortByScore slots)
     /\ Permutation (sortByScore slots) slots
     /\ forall v,
          filter (fun slot => score slot =? v) (sortByScore slots)
          = filter (fun slot => score slot =? v) slots)
  /\ (forall fuel startDate endDate st output,
        resultOf (findAvailableSlots fuel env this task startDate endDate) st
        = Some output ->
        rankedByScore output
        /\ (exists scoredSlots,
              output = sortByScore scoredSlots /\ chronological scoredSlots)
        /\ forall i j a b,
             (i < j)%nat ->
             nth_error output i = Some a -> nth_error output j = Some b ->
             score a = score b ->
             start a < start b).
Proof.
  intros Hservice. split.
  - intros slots. split; [apply sortByScore_ranked|]. split.
    + apply sort_Permutation.
    + intros v. apply sortByScore_stable.
  - intros fuel startDate endDate st output Hout.
    destruct (findAvailableSlots_sorted_from env this task Hservice _ _ _ _ _ Hout)
      as (scoredSlots & -> & Hchrono).
    split; [apply sortByScore_ranked|]. split; [eauto|].
    apply sortByScore_ties. exact Hchrono.
Qed.

(** A Monday from 09:00 to 11:00 with the baseline scorer: the slots of
    09:30 (score 0) and of 10:00 and 10:30 (score -1) come out in that
    order. *)
Lemma output_is_ranked_witness :
  let env := Fixture.env (Fixture.at_ Fixture.monday 9 0) in
  let this := Fixture.manager Fixture.nineToFive Fixture.freeCalendar in
  let task := Fixture.taskOf (Some 30) in
  let output :=
    resultOf
      (findAvailableSlots 10 env this task
         (Fixture.at_ Fixture.monday 9 0) (Fixture.at_ Fixture.monday 11 0))
      Fixture.idle in
  option_map (map (fun slot => (start slot, score slot))) output
  = Some [(Fixture.at_ Fixture.monday 9 30, 0);
          (Fixture.at_ Fixture.monday 10 0, -1);
          (Fixture.at_ Fixture.monday 10 30, -1)]
  /\ forall slots, output = Some slots -> rankedByScore slots.
Proof.
  intros env this task output. split; [vm_compute; reflexivity|].
  intros slots Hout.
  assert (Hservice : answersEachSlot (calendarService this)).
  { intros slotsToCheck calendars taskId. simpl. unfold Fixture.answer.
    rewrite map_map. reflexivity. }
  destruct (output_is_ranked_by_score_and_stable env this task Hservice)
    as (_ & Hfinal).
  apply (Hfinal _ _ _ _ _ Hout).
Defined.

(** ** Repeated calls *)

(** C10: two calls of [findAvailableSlots] with the same task and range, at
    the same instant, with the same settings, task table and calendar
    service, return the same sequence: whatever the scorer held before a
    call, and also when the second call runs from the state the first one
    left; the fuel given to a call that returns does not matter. *)
Theorem same_inputs_give_same_output
    (env : Env) (this : t) (task : Task) (startDate endDate : Date) :
  (forall fuel st st',
     resultOf (findAvailableSlots fuel env this task startDate endDate) st
     = resultOf (findAvailableSlots fuel env this task startDate endDate) st')
  /\ (forall fuel st,
        resultOf (findAvailableSlots fuel env this task startDate endDate)
          (snd (findAvailableSlots fuel env this task startDate endDate st))
        = resultOf (findAvailableSlots fuel env this task startDate endDate) st)
  /\ (forall fuel st,
        scheduledTasks
          (snd (findAvailableSlots fuel env this task startDate endDate st))
        = filter isScheduledTask (prisma this))
  /\ (forall fuel fuel' st st' output output',
        resultOf (findAvailableSlots fuel env this task startDate endDate) st
        = Some output ->
        resultOf (findAvailableSlots fuel' env this task startDate endDate) st'
        = Some output' ->
        output = output').
Proof.
  assert (Hany : forall fuel st st',
             resultOf (findAvailableSlots fuel env this task startDate endDate) st
             = resultOf (findAvailableSlots fuel env this task startDate endDate) st').
  { intros fuel st st'. unfold resultOf. rewrite !findAvailableSlots_run.
    destruct (generatePotentialSlots fuel env this (durationOrDefault task)
                startDate endDate); reflexivity. }
  split; [exact Hany|]. split; [intros; apply Hany|]. split.
  - intros fuel st. rewrite findAvailableSlots_run.
    destruct (generatePotentialSlots fuel env this (durationOrDefault task)
                startDate endDate); reflexivity.
  - intros fuel fuel' st st' output output'. unfold resultOf.
    rewrite !findAvailableSlots_run.
    destruct (generatePotentialSlots fuel env this (durationOrDefault task)
                startDate endDate) as [l|] eqn:Hgen; [|discriminate].
    destruct (generatePotentialSlots fuel' env this (durationOrDefault task)
                startDate endDate) as [l'|] eqn:Hgen'; [|discriminate].
    rewrite (generatePotentialSlots_fuel env this _ _ _ _ _ _ _ Hgen Hgen').
    simpl. congruence.
Qed.

(** Two calls in a row on a Monday morning, the scorer of the first one
    holding a stale task. *)
Lemma same_inputs_give_same_output_witness :
  let env := Fixture.env (Fixture.at_ Fixture.monday 9 0) in
  let this := Fixture.manager Fixture.nineToFive Fixture.freeCalendar in
  let task := Fixture.taskOf (Some 30) in
  let call fuel :=
    findAvailableSlots fuel env this task
      (Fixture.at_ Fixture.monday 9 0) (Fixture.at_ Fixture.monday 11 0) in
  let stale := mkManagerState [Fixture.taskOf (Some 45)] [] in
  resultOf (call 10%nat) (snd (call 10%nat stale)) = resultOf (call 10%nat) stale
  /\ resultOf (call 20%nat) Fixture.idle = resultOf (call 10%nat) stale
  /\ option_map (@List.length TimeSlot) (resultOf (call 10%nat) stale) = Some 3%nat.
Proof.
  intros env this task call stale.
  destruct (same_inputs_give_same_output env this task
              (Fixture.at_ Fixture.monday 9 0) (Fixture.at_ Fixture.monday 11 0))
    as (_ & Hagain & _ & Hfuel).
  split; [apply Hagain|]. split; [|vm_compute; reflexivity].
  destruct (resultOf (call 20%nat) Fixture.idle) as [output|] eqn:Hout;
    [|vm_compute in Hout; discriminate].
  destruct (resultOf (call 10%nat) stale) as [output'|] eqn:Hout';
    [|vm_compute in Hout'; discriminate].
  f_equal. exact (Hfuel 20%nat 10%nat Fixture.idle stale output output' Hout Hout').
Defined.

(** ** The start of the generation *)

Section GenerationStart.

Variables (env : Env) (this : t).

Let localOf (d : Date) : Date := toZonedTime (zones env) d (timeZone this).

(** On the day of the clock, before the end of the work hours, the
    generation starts a quarter of an hour after the start of the range,
    wherever the clock stands in that day. *)
Lemma localCurrentStartBeforeRounding_today (startDate : Date) :
  toDateString (localOf startDate) = toDateString (localOf (now env)) ->
  getHours (addMinutes (localOf startDate) 15) < workHourEnd (settings this) ->
  localCurrentStartBeforeRounding env this startDate
  = addMinutes (localOf startDate) 15.
Proof.
  intros Hday Hhour. unfold localCurrentStartBeforeRounding, localOf in *.
  cbv zeta. rewrite Hday, Z.eqb_refl. unfold MINIMUM_BUFFER_MINUTES.
  destruct (Z.geb_spec (getHours
                          (addMinutes (toZonedTime (zones env) startDate (timeZone this)) 15))
              (workHourEnd (settings this))); [lia|reflexivity].
Qed.


End GenerationStart.







(** ** The lead on the day of the clock *)

(** When the range starts at the clock's instant, 09:00, the first slot is
    the one of 09:30. *)
Lemma first_slot_when_range_starts_now :
  let env := Fixture.env (Fixture.at_ Fixture.monday 9 0) in
  let this := Fixture.manager Fixture.nineToFive Fixture.freeCalendar in
  option_map (map start)
    (generatePotentialSlots 10 env this 30
       (Fixture.at_ Fixture.monday 9 0) (Fixture.at_ Fixture.monday 11 0))
  = Some [Fixture.at_ Fixture.monday 9 30; Fixture.at_ Fixture.monday 10 0;
          Fixture.at_ Fixture.monday 10 30].
Proof. vm_compute. reflexivity. Qed.

(** C2: the code at an input where the claim fails.  The clock stands at
    Monday 09:00 and the range starts that Monday at 08:00, with work hours
    from 9 to 17 and a duration of 30 minutes.  The lead is added to the start
    of the range and not to the clock: the generation starts at 08:15, the
    first generated slot is the one of 08:30, and the first slot within work
    hours is the one of 09:00, the clock's instant, where the claim has
    09:30. *)
Theorem lead_is_added_to_range_start_not_to_clock :
  let env := Fixture.env (Fixture.at_ Fixture.monday 9 0) in
  let this := Fixture.manager Fixture.nineToFive Fixture.freeCalendar in
  let startDate := Fixture.at_ Fixture.monday 8 0 in
  let endDate := Fixture.at_ Fixture.monday 11 0 in
  toDateString (toZonedTime (zones env) startDate (timeZone this))
  = toDateString (toZonedTime (zones env) (now env) (timeZone this))
  /\ localCurrentStartBeforeRounding env this startDate
     = Fixture.at_ Fixture.monday 8 15
  /\ roundDateUp (addMinutes (toZonedTime (zones env) (now env) (timeZone this)) 15)
     = Fixture.at_ Fixture.monday 9 30
  /\ option_map (map start)
       (generatePotentialSlots 10 env this 30 startDate endDate)
     = Some [Fixture.at_ Fixture.monday 8 30; Fixture.at_ Fixture.monday 9 0;
             Fixture.at_ Fixture.monday 9 30; Fixture.at_ Fixture.monday 10 0;
             Fixture.at_ Fixture.monday 10 30]
  /\ option_map (fun slots => map start (filterByWorkHours env this slots))
       (generatePotentialSlots 10 env this 30 startDate endDate)
     = Some [Fixture.at_ Fixture.monday 9 0; Fixture.at_ Fixture.monday 9 30;
             Fixture.at_ Fixture.monday 10 0; Fixture.at_ Fixture.monday 10 30]
  /\ option_map (map start)
       (resultOf
          (findAvailableSlots 10 env this (Fixture.taskOf (Some 30)) startDate endDate)
          Fixture.idle)
     = Some [Fixture.at_ Fixture.monday 9 0; Fixture.at_ Fixture.monday 9 30;
             Fixture.at_ Fixture.monday 10 0; Fixture.at_ Fixture.monday 10 30].
Proof. vm_compute. repeat split; reflexivity. Qed.

(** ** Conflict removal without selected calendars *)

(** The guard of [findCalendarConflicts]: without selected calendars it
    makes no query and finds no conflict. *)
Lemma findCalendarConflicts_without_calendars (env : Env) (this : t)
    (slot : TimeSlot) (st : ManagerState) :
  parseSelectedCalendars env (selectedCalendars (settings this)) = [] ->
  findCalendarConflicts env this slot st = ([], st).
Proof. unfold findCalendarConflicts. intros ->. reflexivity. Qed.

(** C1: the code at an input where the claim fails.  No calendar is
    selected, and the calendar service knows a busy interval from 10:00 to
    10:30.  [removeConflicts] makes the batched query, with the empty list
    of calendars, and drops the work-hour slot of 10:00 for the conflict
    reported; [findCalendarConflicts], on the same slot, makes no query and
    finds no conflict. *)
Theorem removeConflicts_queries_without_selected_calendars :
  let env := Fixture.env (Fixture.at_ Fixture.monday 9 0) in
  let this :=
    Fixture.manager Fixture.nineToFive
      (Fixture.busyBetween (Fixture.at_ Fixture.monday 10 0)
         (Fixture.at_ Fixture.monday 10 30)) in
  let task := Fixture.taskOf (Some 30) in
  let slot :=
    set_isWithinWorkHours
      (Fixture.slotAt (Fixture.at_ Fixture.monday 10 0)
         (Fixture.at_ Fixture.monday 10 30)) true in
  parseSelectedCalendars env (selectedCalendars (settings this)) = []
  /\ callsOf (removeConflicts env this [slot] task) Fixture.idle
     = [FindBatchConflicts [(slot, "task-1"%string)] [] "task-1"%string]
  /\ resultOf (removeConflicts env this [slot] task) Fixture.idle = []
  /\ callsOf (findCalendarConflicts env this slot) Fixture.idle = []
  /\ resultOf (findCalendarConflicts env this slot) Fixture.idle = []
  /\ option_map (map start)
       (resultOf
          (findAvailableSlots 10 env this task
             (Fixture.at_ Fixture.monday 9 0) (Fixture.at_ Fixture.monday 11 0))
          Fixture.idle)
     = Some [Fixture.at_ Fixture.monday 9 30; Fixture.at_ Fixture.monday 10 30].
Proof. vm_compute. repeat split; reflexivity. Qed.

(** * Further properties of the manager *)

Ltac date_ring := unfold msPerMinute in *; lia.

(** ** The row of generated slots *)

Lemma slotNumber_shift (from : Date) (duration : Z) (k : nat) :
  slotNumber from duration (S k) = slotNumber (addMinutes from duration) duration k.
Proof.
  unfold slotNumber, addMinutes. rewrite Nat2Z.inj_succ. f_equal; date_ring.
Qed.

(** A run of the loop that returns has pushed a row of slots, up to the
    first one that would start at or after the end bound. *)
Lemma runLoop_row (duration : Z) (localEndDate : Date) (fuel : nat) :
  forall st result,
    runLoop fuel duration localEndDate st = Some result ->
    exists n,
      result = slots st ++ map (slotNumber (localCurrentStart st) duration) (seq 0 n)
      /\ (forall k, (k < n)%nat ->
            start (slotNumber (localCurrentStart st) duration k) < localEndDate)
      /\ localEndDate
         <= addMinutes (localCurrentStart st) (Z.of_nat n * duration).
Proof.
  induction fuel as [|fuel IH]; intros st result; simpl.
  - destruct (loopStep duration localEndDate st) eqn:E; [discriminate|].
    intros [= <-]. apply loopStep_None in E. exists 0%nat. simpl.
    rewrite app_nil_r. split; [reflexivity|]. split; [intros; lia|].
    unfold addMinutes. lia.
  - destruct (loopStep duration localEndDate st) as [next|] eqn:E.
    + intros Hrun. destruct (IH _ _ Hrun) as (n & -> & Hbefore & Hexit).
      apply loopStep_Some in E. destruct E as (Hlt & Hcur & Hslots).
      rewrite Hcur in *. exists (S n). split; [|split].
      * rewrite Hslots, <- app_assoc. f_equal.
        change (seq 0 (S n)) with (0%nat :: seq 1 n). cbn [map app]. f_equal.
        -- unfold slotNumber, addMinutes. f_equal; date_ring.
        -- rewrite <- seq_shift, map_map. apply map_ext.
           intros k. symmetry. apply slotNumber_shift.
      * intros [|k] Hk.
        -- simpl. unfold addMinutes. simpl. lia.
        -- change (start (slotNumber (localCurrentStart st) duration (S k))
                   < localEndDate).
           rewrite slotNumber_shift. apply Hbefore. lia.
      * rewrite Nat2Z.inj_succ. unfold addMinutes in *.
        replace (localCurrentStart st + Z.succ (Z.of_nat n) * duration * msPerMinute)
          with (localCurrentStart st + duration * msPerMinute
                + Z.of_nat n * duration * msPerMinute) by date_ring.
        exact Hexit.
    + intros [= <-]. apply loopStep_None in E. exists 0%nat. simpl.
      rewrite app_nil_r. split; [reflexivity|]. split; [intros; lia|].
      unfold addMinutes. lia.
Qed.

Lemma generatePotentialSlots_row (env : Env) (this : t) (fuel : nat)
    (duration : Z) (startDate endDate : Date) (result : list TimeSlot) :
  generatePotentialSlots fuel env this duration startDate endDate = Some result ->
  exists n,
    result = map (slotNumber (roundedStart env this startDate) duration) (seq 0 n)
    /\ (forall k, (k < n)%nat ->
          start (slotNumber (roundedStart env this startDate) duration k)
          < roundedEnd env this endDate)
    /\ roundedEnd env this endDate
       <= addMinutes (roundedStart env this startDate) (Z.of_nat n * duration).
Proof.
  unfold generatePotentialSlots. intros Hrun.
  apply runLoop_row in Hrun. exact Hrun.
Qed.

(** X1: the generated slots are laid end to end from the rounded start: slot
    number [k] runs from [k] durations to [k + 1] durations after it, so
    that each slot starts when the one before it ends. *)
Theorem generated_slots_are_laid_end_to_end (env : Env) (this : t) (fuel : nat)
    (duration : Z) (startDate endDate : Date) (potentialSlots : list TimeSlot) :
  generatePotentialSlots fuel env this duration startDate endDate
  = Some potentialSlots ->
  (forall k slot,
     nth_error potentialSlots k = Some slot ->
     slot = slotNumber (roundedStart env this startDate) duration k)
  /\ (forall k a b,
        nth_error potentialSlots k = Some a ->
        nth_error potentialSlots (S k) = Some b ->
        start b = end_ a).
Proof.
  intros Hgen. destruct (generatePotentialSlots_row _ _ _ _ _ _ _ Hgen)
    as (n & -> & _ & _).
  assert (Hnth : forall k slot,
             nth_error
               (map (slotNumber (roundedStart env this startDate) duration) (seq 0 n))
               k = Some slot ->
             slot = slotNumber (roundedStart env this startDate) duration k).
  { intros k slot Hk. rewrite nth_error_map in Hk.
    destruct (nth_error (seq 0 n) k) as [i|] eqn:Hi; [|discriminate].
    injection Hk as <-.
    assert (Hlen : (k < n)%nat).
    { apply nth_error_Some_bound_index in Hi || idtac.
      assert (H := nth_error_Some (seq 0 n) k). rewrite Hi, length_seq in H.
      apply H. discriminate. }
    rewrite nth_error_seq in Hi.
    destruct (Nat.ltb_spec k n); [|lia]. injection Hi as <-. reflexivity. }
  split; [exact Hnth|].
  intros k a b Ha Hb. rewrite (Hnth _ _ Ha), (Hnth _ _ Hb).
  unfold slotNumber. cbn [start end_]. f_equal. lia.
Qed.

(** A 30 minute task on a Monday from 09:00 to 11:00: the slots are the
    row of 30 minute slots from 09:30. *)
Lemma generated_slots_are_laid_end_to_end_witness :
  match
    generatePotentialSlots 10
      (Fixture.env (Fixture.at_ Fixture.monday 9 0))
      (Fixture.manager Fixture.nineToFive Fixture.freeCalendar)
      30 (Fixture.at_ Fixture.monday 9 0) (Fixture.at_ Fixture.monday 11 0)
  with
  | Some slots =>
      forall k slot,
        nth_error slots k = Some slot ->
        slot = slotNumber (Fixture.at_ Fixture.monday 9 30) 30 k
  | None => False
  end.
Proof.
  destruct (generatePotentialSlots 10
              (Fixture.env (Fixture.at_ Fixture.monday 9 0))
              (Fixture.manager Fixture.nineToFive Fixture.freeCalendar)
              30 (Fixture.at_ Fixture.monday 9 0) (Fixture.at_ Fixture.monday 11 0))
    as [slots|] eqn:Hgen; [|vm_compute in Hgen; discriminate].
  destruct (generated_slots_are_laid_end_to_end _ _ _ _ _ _ _ Hgen) as (Hnth & _).
  intros k slot Hslot. rewrite (Hnth k slot Hslot). reflexivity.
Defined.

(** X2: the generated slots cover the range between the rounded bounds: for a
    positive duration and a start before the end, their number is the
    distance between the bounds divided by the duration, rounded up; each
    starts within the bounds; the last one ends at or after the end bound,
    less than a duration after it. *)
Theorem generated_slots_cover_the_range (env : Env) (this : t) (fuel : nat)
    (duration : Z) (startDate endDate : Date) (potentialSlots : list TimeSlot) :
  0 < duration ->
  roundedStart env this startDate < roundedEnd env this endDate ->
  generatePotentialSlots fuel env this duration startDate endDate
  = Some potentialSlots ->
  Z.of_nat (List.length potentialSlots)
  = (roundedEnd env this endDate - roundedStart env this startDate
     + duration * msPerMinute - 1) / (duration * msPerMinute)
  /\ Forall (fun slot =>
               roundedStart env this startDate <= start slot
               < roundedEnd env this endDate) potentialSlots
  /\ exists front last,
       potentialSlots = front ++ [last]
       /\ roundedEnd env this endDate <= end_ last
          < roundedEnd env this endDate + duration * msPerMinute.
Proof.
  intros Hpos Hlt Hgen.
  destruct (generatePotentialSlots_row _ _ _ _ _ _ _ Hgen)
    as (n & Hrow & Hbefore & Hexit).
  assert (Hstarts := proj1 (generatePotentialSlots_slots _ _ _ _ _ _ _ Hgen)).
  fold (roundedStart env this startDate) in Hstarts.
  destruct n as [|n].
  { unfold addMinutes in Hexit. simpl in Hexit. lia. }
  assert (Hlast := Hbefore n (Nat.lt_succ_diag_r n)).
  unfold slotNumber in Hlast. cbn [start] in Hlast.
  unfold addMinutes in Hexit, Hlast. rewrite Nat2Z.inj_succ in Hexit.
  split; [|split].
  - rewrite Hrow, length_map, length_seq, Nat2Z.inj_succ.
    apply Z.div_unique
      with (r := roundedEnd env this endDate - roundedStart env this startDate - 1
                 - Z.of_nat n * (duration * msPerMinute)).
    + left. unfold msPerMinute in *. lia.
    + unfold msPerMinute in *. lia.
  - rewrite Hrow in *. apply Forall_forall. intros slot Hin.
    rewrite Forall_forall in Hstarts. split; [apply (Hstarts slot Hin)|].
    apply in_map_iff in Hin. destruct Hin as (k & <- & Hk).
    apply in_seq in Hk. apply Hbefore. lia.
  - exists (map (slotNumber (roundedStart env this startDate) duration) (seq 0 n)),
      (slotNumber (roundedStart env this startDate) duration n).
    split.
    + rewrite Hrow, seq_S, map_app. reflexivity.
    + unfold slotNumber, addMinutes. cbn [end_]. unfold msPerMinute in *. lia.
Qed.

(** A 30 minute task on a Monday from 09:00 to 11:00: three slots, from
    09:30 to 11:00. *)
Lemma generated_slots_cover_the_range_witness :
  match
    generatePotentialSlots 10
      (Fixture.env (Fixture.at_ Fixture.monday 9 0))
      (Fixture.manager Fixture.nineToFive Fixture.freeCalendar)
      30 (Fixture.at_ Fixture.monday 9 0) (Fixture.at_ Fixture.monday 11 0)
  with
  | Some slots => Z.of_nat (List.length slots) = 3
  | None => False
  end.
Proof.
  destruct (generatePotentialSlots 10
              (Fixture.env (Fixture.at_ Fixture.monday 9 0))
              (Fixture.manager Fixture.nineToFive Fixture.freeCalendar)
              30 (Fixture.at_ Fixture.monday 9 0) (Fixture.at_ Fixture.monday 11 0))
    as [slots|] eqn:Hgen; [|vm_compute in Hgen; discriminate].
  destruct (generated_slots_cover_the_range
              (Fixture.env (Fixture.at_ Fixture.monday 9 0))
              (Fixture.manager Fixture.nineToFive Fixture.freeCalendar)
              10 30 (Fixture.at_ Fixture.monday 9 0) (Fixture.at_ Fixture.monday 11 0)
              slots eq_refl eq_refl Hgen)
    as (Hcount & _).
  rewrite Hcount. vm_compute. reflexivity.
Defined.

(** ** A range without room *)

(** X3: when the rounded start is at or after the rounded end bound, the loop
    is not entered: the generation returns no slot, with any fuel and any
    duration, a negative one too; and a call of [findAvailableSlots]
    returns the empty sequence, the calendar service being asked about no
    slot. *)
Theorem empty_range_gives_no_slot (env : Env) (this : t) (task : Task)
    (startDate endDate : Date) :
  roundedEnd env this endDate <= roundedStart env this startDate ->
  (forall fuel duration,
     generatePotentialSlots fuel env this duration startDate endDate = Some [])
  /\ (forall fuel st,
        callsOf (findAvailableSlots fuel env this task startDate endDate) st
        = [TaskFindMany; batchQuery env this [] task])
  /\ (answersEachSlot (calendarService this) ->
      forall fuel st,
        resultOf (findAvailableSlots fuel env this task startDate endDate) st
        = Some []).
Proof.
  intros Hle.
  assert (Hgen : forall fuel duration,
             generatePotentialSlots fuel env this duration startDate endDate
             = Some []).
  { intros fuel duration. unfold generatePotentialSlots.
    assert (Hexit : loopStep duration
                      (roundDateUp (toZonedTime (zones env) endDate (timeZone this)))
                      (mkLoopState
                         (roundDateUp
                            (localCurrentStartBeforeRounding env this startDate)) [])
                    = None) by (apply loopStep_None; exact Hle).
    destruct fuel; simpl; rewrite Hexit; reflexivity. }
  split; [exact Hgen|]. split.
  - intros fuel st. unfold callsOf. rewrite findAvailableSlots_run, Hgen.
    simpl. rewrite <- app_assoc. apply skipn_length_app.
  - intros Hservice fuel st. unfold resultOf.
    rewrite findAvailableSlots_run, Hgen. simpl.
    assert (Hanswer := batchAnswer_slots env this task Hservice []).
    apply map_eq_nil in Hanswer. rewrite Hanswer. reflexivity.
Qed.

(** A range that ends before it starts, with a task of minus 30 minutes. *)
Lemma empty_range_gives_no_slot_witness :
  resultOf
    (findAvailableSlots 0
       (Fixture.env (Fixture.at_ Fixture.monday 9 0))
       (Fixture.manager Fixture.nineToFive Fixture.freeCalendar)
       (Fixture.taskOf (Some (-30)))
       (Fixture.at_ Fixture.monday 11 0) (Fixture.at_ Fixture.monday 9 0))
    Fixture.idle
  = Some [].
Proof.
  apply (empty_range_gives_no_slot
           (Fixture.env (Fixture.at_ Fixture.monday 9 0))
           (Fixture.manager Fixture.nineToFive Fixture.freeCalendar)).
  - vm_compute. discriminate.
  - intros slotsToCheck calendars taskId. simpl. unfold Fixture.answer.
    rewrite map_map. reflexivity.
Defined.

(** ** Where the generation starts *)

Lemma roundDateUp_halfHourAligned (d : Date) : halfHourAligned (roundDateUp d).
Proof.
  unfold halfHourAligned, roundDateUp. apply Z.mod_mul. discriminate.
Qed.

(** X4: the first slot starts on a half hour, and with a duration that is a
    multiple of 30 minutes every generated slot does. *)
Theorem generated_slots_start_on_half_hours (env : Env) (this : t) (fuel : nat)
    (duration : Z) (startDate endDate : Date) (potentialSlots : list TimeSlot) :
  generatePotentialSlots fuel env this duration startDate endDate
  = Some potentialSlots ->
  (forall first rest, potentialSlots = first :: rest -> halfHourAligned (start first))
  /\ (duration mod 30 = 0 ->
      Forall (fun slot => halfHourAligned (start slot)) potentialSlots).
Proof.
  intros Hgen. destruct (generatePotentialSlots_row _ _ _ _ _ _ _ Hgen)
    as (n & -> & _ & _).
  assert (Hstart := roundDateUp_halfHourAligned
                      (localCurrentStartBeforeRounding env this startDate)).
  fold (roundedStart env this startDate) in Hstart. split.
  - intros first rest Hrow. destruct n as [|n]; [discriminate|].
    simpl in Hrow. injection Hrow as <- _.
    unfold slotNumber, addMinutes. cbn [start].
    replace (roundedStart env this startDate + _)
      with (roundedStart env this startDate) by lia.
    exact Hstart.
  - intros Hduration. apply Forall_forall. intros slot Hin.
    apply in_map_iff in Hin. destruct Hin as (k & <- & _).
    unfold halfHourAligned, slotNumber, addMinutes in *. cbn [start].
    apply Z.mod_divide in Hduration; [|discriminate].
    destruct Hduration as (q & ->).
    replace (roundedStart env this startDate
             + Z.of_nat k * (q * 30) * msPerMinute)
      with (roundedStart env this startDate + (Z.of_nat k * q) * msPerHalfHour)
      by (unfold msPerMinute, msPerHalfHour; lia).
    rewrite Z.mod_add by discriminate. exact Hstart.
Qed.

(** A 60 minute task from Monday 09:10: the slots start at 09:30, 10:30. *)
Lemma generated_slots_start_on_half_hours_witness :
  match
    generatePotentialSlots 10
      (Fixture.env (Fixture.at_ Fixture.monday 9 10))
      (Fixture.manager Fixture.nineToFive Fixture.freeCalendar)
      60 (Fixture.at_ Fixture.monday 9 10) (Fixture.at_ Fixture.monday 11 0)
  with
  | Some slots =>
      map start slots
      = [Fixture.at_ Fixture.monday 9 30; Fixture.at_ Fixture.monday 10 30]
      /\ Forall (fun slot => halfHourAligned (start slot)) slots
  | None => False
  end.
Proof.
  destruct (generatePotentialSlots 10
              (Fixture.env (Fixture.at_ Fixture.monday 9 10))
              (Fixture.manager Fixture.nineToFive Fixture.freeCalendar)
              60 (Fixture.at_ Fixture.monday 9 10) (Fixture.at_ Fixture.monday 11 0))
    as [slots|] eqn:Hgen; [|vm_compute in Hgen; discriminate].
  split.
  - vm_compute in Hgen. injection Hgen as <-. reflexivity.
  - apply (generated_slots_start_on_half_hours _ _ _ _ _ _ _ Hgen). reflexivity.
Defined.

(** X5: for a range that does not start on the day of the clock, the generation
    starts on the first day of the range at [workHourStart] with minute 0,
    whatever the time of day of the range start; when the range starts at a
    later hour than [workHourStart], the first slot is generated before
    the start of the range. *)
Theorem other_day_generation_starts_at_work_start (env : Env) (this : t)
    (startDate : Date) :
  let localStartDate := toZonedTime (zones env) startDate (timeZone this) in
  let localNow := toZonedTime (zones env) (now env) (timeZone this) in
  let generationStart := localCurrentStartBeforeRounding env this startDate in
  toDateString localStartDate <> toDateString localNow ->
  0 <= workHourStart (settings this) < 24 ->
  toDateString generationStart = toDateString localStartDate
  /\ getHours generationStart = workHourStart (settings this)
  /\ getMinutes generationStart = 0
  /\ (workHourStart (settings this) < getHours localStartDate ->
      roundedStart env this startDate < localStartDate).
Proof.
  intros localStartDate localNow generationStart Hday Hstart.
  assert (Hgs : generationStart
                = setMinutes (setHours localStartDate (workHourStart (settings this))) 0).
  { subst generationStart. unfold localCurrentStartBeforeRounding. cbv zeta.
    fold localStartDate localNow.
    destruct (Z.eqb_spec (toDateString localStartDate) (toDateString localNow));
      [contradiction|reflexivity]. }
  split; [|split; [|split]].
  - rewrite Hgs, toDateString_setMinutes, toDateString_setHours by lia. reflexivity.
  - rewrite Hgs, getHours_setMinutes, getHours_setHours by lia. reflexivity.
  - rewrite Hgs, getMinutes_setMinutes by lia. reflexivity.
  - intros Hlater. unfold roundedStart. fold generationStart. rewrite Hgs.
    clearbody localStartDate. clear Hgs generationStart Hday localNow.
    revert Hstart Hlater. generalize (workHourStart (settings this)).
    intros h Hh Hlater. date_arith.
Qed.

(** On Monday a range from Wednesday 15:20: the first slot is the one of
    Wednesday 09:00. *)
Lemma other_day_generation_witness :
  let env := Fixture.env (Fixture.at_ Fixture.monday 9 0) in
  let this := Fixture.manager Fixture.nineToFive Fixture.freeCalendar in
  let startDate := Fixture.at_ (Fixture.monday + 2) 15 20 in
  localCurrentStartBeforeRounding env this startDate
  = Fixture.at_ (Fixture.monday + 2) 9 0
  /\ roundedStart env this startDate < toZonedTime (zones env) startDate (timeZone this).
Proof.
  intros env this startDate.
  destruct (other_day_generation_starts_at_work_start env this startDate)
    as (_ & _ & _ & Hbefore).
  - vm_compute. discriminate.
  - simpl. lia.
  - split; [vm_compute; reflexivity|]. apply Hbefore. vm_compute. reflexivity.
Defined.

(** X6: on the day of the clock, when the lead of 15 minutes stays before
    [workHourEnd], the generation starts between 15 and 45 minutes after
    the start of the range, and no slot generated or returned starts less
    than 15 minutes after the start of the range. *)
Theorem same_day_slots_keep_the_lead_from_range_start (env : Env) (this : t)
    (startDate : Date) :
  let localStartDate := toZonedTime (zones env) startDate (timeZone this) in
  let localNow := toZonedTime (zones env) (now env) (timeZone this) in
  toDateString localStartDate = toDateString localNow ->
  getHours (addMinutes localStartDate 15) < workHourEnd (settings this) ->
  addMinutes localStartDate 15 <= roundedStart env this startDate
  /\ roundedStart env this startDate < addMinutes localStartDate 45
  /\ (forall fuel duration endDate potentialSlots,
        generatePotentialSlots fuel env this duration startDate endDate
        = Some potentialSlots ->
        Forall (fun slot => addMinutes localStartDate 15 <= start slot)
          potentialSlots)
  /\ (answersEachSlot (calendarService this) ->
      forall fuel task endDate st output,
        resultOf (findAvailableSlots fuel env this task startDate endDate) st
        = Some output ->
        Forall (fun slot => addMinutes localStartDate 15 <= start slot) output).
Proof.
  intros localStartDate localNow Hday Hhour.
  assert (Hgs := localCurrentStartBeforeRounding_today env this startDate Hday Hhour).
  fold localStartDate in Hgs.
  assert (Hbounds := roundDateUp_bounds (addMinutes localStartDate 15)).
  assert (Hlow : addMinutes localStartDate 15 <= roundedStart env this startDate).
  { unfold roundedStart. rewrite Hgs. apply Hbounds. }
  assert (Hgenerated :
            forall fuel duration endDate potentialSlots,
              generatePotentialSlots fuel env this duration startDate endDate
              = Some potentialSlots ->
              Forall (fun slot => addMinutes localStartDate 15 <= start slot)
                potentialSlots).
  { intros fuel duration endDate potentialSlots Hgen.
    apply generatePotentialSlots_slots in Hgen. destruct Hgen as (Hall & _).
    eapply Forall_impl; [|exact Hall]. simpl. intros slot (_ & Hle & _).
    fold (roundedStart env this startDate) in Hle. lia. }
  split; [exact Hlow|]. split; [|split; [exact Hgenerated|]].
  - unfold roundedStart. rewrite Hgs.
    unfold localStartDate, addMinutes, msPerMinute, msPerHalfHour in *. lia.
  - intros Hservice fuel task endDate st output Hout.
    apply Forall_forall. intros slot Hin.
    destruct (findAvailableSlots_origin env this task Hservice _ _ _ _ _ Hout)
      as (potentialSlots & Hgen & Horigin).
    destruct (Horigin slot Hin) as (generated & Hgenerated_in & _ & _ & ->).
    apply Hgenerated in Hgen. rewrite Forall_forall in Hgen.
    apply (Hgen generated Hgenerated_in).
Qed.

(** The clock at Monday 12:00 and a range from Monday 08:00: the first
    slot returned is the one of 09:00, three hours before the clock. *)
Lemma same_day_lead_witness :
  let env := Fixture.env (Fixture.at_ Fixture.monday 12 0) in
  let this := Fixture.manager Fixture.nineToFive Fixture.freeCalendar in
  let startDate := Fixture.at_ Fixture.monday 8 0 in
  roundedStart env this startDate = Fixture.at_ Fixture.monday 8 30
  /\ Fixture.at_ Fixture.monday 8 15 <= roundedStart env this startDate
  /\ option_map (map start)
       (resultOf
          (findAvailableSlots 10 env this (Fixture.taskOf (Some 30)) startDate
             (Fixture.at_ Fixture.monday 10 0))
          Fixture.idle)
     = Some [Fixture.at_ Fixture.monday 9 0; Fixture.at_ Fixture.monday 9 30].
Proof.
  intros env this startDate.
  destruct (same_day_slots_keep_the_lead_from_range_start env this startDate)
    as (Hlow & _).
  - vm_compute. reflexivity.
  - vm_compute. reflexivity.
  - split; [vm_compute; reflexivity|]. split; [exact Hlow|].
    vm_compute. reflexivity.
Defined.

(** ** The calls of a scheduling request *)

(** X7: a call of [findAvailableSlots] reads the task table once and then, if
    the generation returns, asks the calendar service once, about all the
    slots within work hours at a time, each paired with the task's
    identifier; it makes no other call, and no query about a single slot. *)
Theorem findAvailableSlots_asks_the_calendar_once (env : Env) (this : t)
    (task : Task) (startDate endDate : Date) (fuel : nat) (st : ManagerState) :
  calls (snd (findAvailableSlots fuel env this task startDate endDate st))
  = calls st ++ callsOf (findAvailableSlots fuel env this task startDate endDate) st
  /\ callsOf (findAvailableSlots fuel env this task startDate endDate) st
     = TaskFindMany
       :: match
            generatePotentialSlots fuel env this (durationOrDefault task)
              startDate endDate
          with
          | Some potentialSlots =>
              [FindBatchConflicts
                 (map (fun slot => (slot, id task))
                    (filterByWorkHours env this potentialSlots))
                 (parseSelectedCalendars env (selectedCalendars (settings this)))
                 (id task)]
          | None => []
          end
  /\ (forall slot calendars,
        ~ In (FindConflicts slot calendars)
            (callsOf (findAvailableSlots fuel env this task startDate endDate) st))
  /\ (forall slotsToCheck calendars taskId slot slotTask,
        In (FindBatchConflicts slotsToCheck calendars taskId)
           (callsOf (findAvailableSlots fuel env this task startDate endDate) st) ->
        In (slot, slotTask) slotsToCheck ->
        slotTask = id task /\ workHoursRule env this slot
        /\ Scheduling.isWithinWorkHours slot = true).
Proof.
  assert (Hcalls :
            callsOf (findAvailableSlots fuel env this task startDate endDate) st
            = TaskFindMany
              :: match
                   generatePotentialSlots fuel env this (durationOrDefault task)
                     startDate endDate
                 with
                 | Some potentialSlots =>
                     [batchQuery env this (filterByWorkHours env this potentialSlots)
                        task]
                 | None => []
                 end).
  { unfold callsOf. rewrite findAvailableSlots_run.
    destruct (generatePotentialSlots fuel env this (durationOrDefault task)
                startDate endDate); simpl.
    - rewrite <- app_assoc. apply skipn_length_app.
    - apply skipn_length_app. }
  split; [|split; [exact Hcalls|split]].
  - rewrite Hcalls. rewrite findAvailableSlots_run.
    destruct (generatePotentialSlots fuel env this (durationOrDefault task)
                startDate endDate); simpl; [rewrite <- app_assoc|]; reflexivity.
  - intros slot calendars. rewrite Hcalls.
    destruct (generatePotentialSlots fuel env this (durationOrDefault task)
                startDate endDate); simpl; unfold batchQuery;
      intros [H|H]; try discriminate; try contradiction.
    destruct H as [H|H]; [discriminate|contradiction].
  - intros slotsToCheck calendars taskId slot slotTask. rewrite Hcalls.
    destruct (generatePotentialSlots fuel env this (durationOrDefault task)
                startDate endDate) as [potentialSlots|]; simpl; unfold batchQuery.
    + intros [H|[H|H]]; [discriminate| |contradiction].
      injection H as <- _ _. intros Hin.
      apply in_map_iff in Hin. destruct Hin as (kept & [= <- <-] & Hkept).
      split; [reflexivity|].
      rewrite filterByWorkHours_filter in Hkept.
      apply in_map_iff in Hkept. destruct Hkept as (origin & <- & Horigin).
      apply filter_In in Horigin. destruct Horigin as (_ & Hpass).
      split; [|reflexivity].
      apply workHoursFilterResult_rule.
      rewrite <- Hpass. apply workHoursFilterResult_interval; reflexivity.
    + intros [H|H]; [discriminate|contradiction].
Qed.

(** A Monday morning: the table is read, then the service is asked once,
    about the three slots within work hours. *)
Lemma findAvailableSlots_asks_once_witness :
  let calls :=
    callsOf
      (findAvailableSlots 10
         (Fixture.env (Fixture.at_ Fixture.monday 9 0))
         (Fixture.manager Fixture.nineToFive Fixture.freeCalendar)
         (Fixture.taskOf (Some 30))
         (Fixture.at_ Fixture.monday 8 0) (Fixture.at_ Fixture.monday 11 0))
      Fixture.idle in
  match calls with
  | [TaskFindMany; FindBatchConflicts slotsToCheck [] taskId] =>
      map (fun check => start (fst check)) slotsToCheck
      = [Fixture.at_ Fixture.monday 9 0; Fixture.at_ Fixture.monday 9 30;
         Fixture.at_ Fixture.monday 10 0; Fixture.at_ Fixture.monday 10 30]
      /\ taskId = "task-1"%string
  | _ => False
  end.
Proof.
  intros calls. subst calls.
  destruct (findAvailableSlots_asks_the_calendar_once
              (Fixture.env (Fixture.at_ Fixture.monday 9 0))
              (Fixture.manager Fixture.nineToFive Fixture.freeCalendar)
              (Fixture.taskOf (Some 30))
              (Fixture.at_ Fixture.monday 8 0) (Fixture.at_ Fixture.monday 11 0)
              10 Fixture.idle) as (_ & -> & _).
  vm_compute. split; reflexivity.
Defined.

(** ** Availability of one slot *)

Section IsSlotAvailable.

Variables (env : Env) (this : t) (slot : TimeSlot).

Let selected : list string :=
  parseSelectedCalendars env (selectedCalendars (settings this)).

Lemma isSlotAvailable_run (st : ManagerState) :
  isSlotAvailable env this slot st
  = if isWithinWorkHours env this slot then
      match selected with
      | [] => (true, st)
      | _ :: _ =>
          ((List.length (findConflicts (calendarService this) slot selected) =? 0)%nat,
           mkManagerState (scheduledTasks st)
             (calls st ++ [FindConflicts slot selected]))
      end
    else (false, st).
Proof.
  unfold isSlotAvailable, findCalendarConflicts, bind. fold selected.
  destruct (isWithinWorkHours env this slot); simpl; [|reflexivity].
  destruct selected; reflexivity.
Qed.

End IsSlotAvailable.

(** X8: [isSlotAvailable] answers true exactly when the slot passes the
    work-hours rule and either no calendar is selected or the calendar
    service finds no conflict for the slot in the selected calendars. *)
Theorem isSlotAvailable_true_iff (env : Env) (this : t) (slot : TimeSlot)
    (st : ManagerState) :
  resultOf (isSlotAvailable env this slot) st = true <->
  workHoursRule env this slot
  /\ (parseSelectedCalendars env (selectedCalendars (settings this)) = []
      \/ findConflicts (calendarService this) slot
           (parseSelectedCalendars env (selectedCalendars (settings this))) = []).
Proof.
  unfold resultOf. rewrite isSlotAvailable_run, <- isWithinWorkHours_rule.
  destruct (isWithinWorkHours env this slot).
  - destruct (parseSelectedCalendars env (selectedCalendars (settings this)))
      as [|calendar others]; simpl.
    + intuition.
    + destruct (findConflicts (calendarService this) slot (calendar :: others));
        simpl; intuition discriminate.
  - simpl. intuition discriminate.
Qed.

(** X9: [isSlotAvailable] asks the calendar service only about a slot within
    work hours, and only when a calendar is selected: then it makes one
    query, about that slot and those calendars; otherwise it leaves the
    log as it is.  It never changes what the scorer holds. *)
Theorem isSlotAvailable_queries_only_when_needed (env : Env) (this : t)
    (slot : TimeSlot) (st : ManagerState) :
  let selected := parseSelectedCalendars env (selectedCalendars (settings this)) in
  (~ workHoursRule env this slot \/ selected = [] ->
   snd (isSlotAvailable env this slot st) = st)
  /\ (workHoursRule env this slot -> selected <> [] ->
      callsOf (isSlotAvailable env this slot) st = [FindConflicts slot selected])
  /\ scheduledTasks (snd (isSlotAvailable env this slot st)) = scheduledTasks st.
Proof.
  intros selected. rewrite isSlotAvailable_run. fold selected.
  rewrite <- isWithinWorkHours_rule. split; [|split].
  - intros [Hout|Hnone].
    + destruct (isWithinWorkHours env this slot); [contradiction Hout|]; reflexivity.
    + rewrite Hnone. destruct (isWithinWorkHours env this slot); reflexivity.
  - intros Hin Hsome. unfold callsOf. rewrite isSlotAvailable_run. fold selected.
    rewrite Hin. destruct selected; [contradiction|]. simpl.
    apply skipn_length_app.
  - destruct (isWithinWorkHours env this slot); [|reflexivity].
    destruct selected; reflexivity.
Qed.

(** Monday 10:00-10:30 with the calendar "[work]" selected and a meeting
    at that time: one query, and the slot is not available; Monday
    08:00-08:30, before work hours: no query. *)
Lemma isSlotAvailable_witness :
  let env := Fixture.env (Fixture.at_ Fixture.monday 9 0) in
  let this :=
    Fixture.manager (Fixture.nineToFiveWith "[work]")
      (Fixture.busyBetween (Fixture.at_ Fixture.monday 10 0)
         (Fixture.at_ Fixture.monday 10 30)) in
  let ten := Fixture.slotAt (Fixture.at_ Fixture.monday 10 0)
               (Fixture.at_ Fixture.monday 10 30) in
  let eight := Fixture.slotAt (Fixture.at_ Fixture.monday 8 0)
                 (Fixture.at_ Fixture.monday 8 30) in
  callsOf (isSlotAvailable env this ten) Fixture.idle
  = [FindConflicts ten ["[work]"%string]]
  /\ resultOf (isSlotAvailable env this ten) Fixture.idle = false
  /\ snd (isSlotAvailable env this eight Fixture.idle) = Fixture.idle.
Proof.
  intros env this ten eight.
  destruct (isSlotAvailable_queries_only_when_needed env this ten Fixture.idle)
    as (_ & Hquery & _).
  destruct (isSlotAvailable_queries_only_when_needed env this eight Fixture.idle)
    as (Hquiet & _ & _).
  split; [|split].
  - apply Hquery.
    + unfold workHoursRule. vm_compute. intuition discriminate.
    + vm_compute. discriminate.
  - vm_compute. reflexivity.
  - apply Hquiet. left. unfold workHoursRule. vm_compute.
    intros (_ & H & _). apply H. reflexivity.
Defined.

(** ** The scheduled tasks of the scorer *)

(** X10: after [updateScheduledTasks] the scorer holds exactly the tasks of the
    table that are auto-scheduled and have a scheduled start, a scheduled
    end and a project, whatever it held before; a second refresh changes
    nothing it holds; each refresh reads the table once. *)
Theorem updateScheduledTasks_keeps_the_placed_tasks (this : t) (st : ManagerState) :
  let refreshed := snd (updateScheduledTasks this st) in
  (forall task,
     In task (scheduledTasks refreshed) <->
     In task (prisma this)
     /\ isAutoScheduled task = true
     /\ scheduledStart task <> None
     /\ scheduledEnd task <> None
     /\ projectId task <> None)
  /\ scheduledTasks (snd (updateScheduledTasks this refreshed))
     = scheduledTasks refreshed
  /\ calls refreshed = calls st ++ [TaskFindMany].
Proof.
  intros refreshed. split; [|split; reflexivity].
  intros task. subst refreshed. simpl. rewrite filter_In.
  unfold isScheduledTask, isSome. rewrite !andb_true_iff.
  destruct (scheduledStart task), (scheduledEnd task), (projectId task);
    intuition congruence.
Qed.

(** ** The slots of the output *)

Section Output.

Variables (env : Env) (this : t) (task : Task).

Hypothesis service_answers : answersEachSlot (calendarService this).

(** A slot of the output, with the fresh slot it was generated as. *)
Lemma findAvailableSlots_fresh_origin (fuel : nat) (startDate endDate : Date)
    (st : ManagerState) (output : list TimeSlot) (slot : TimeSlot) :
  resultOf (findAvailableSlots fuel env this task startDate endDate) st
  = Some output ->
  In slot output ->
  exists potentialSlots generated,
    generatePotentialSlots fuel env this (durationOrDefault task) startDate endDate
    = Some potentialSlots
    /\ In generated potentialSlots
    /\ freshSlot generated
    /\ 0 < durationOrDefault task
    /\ workHoursRule env this generated
    /\ slot =
       scoreSlotsTo env this (filter isScheduledTask (prisma this)) task
         (applyBufferTimesTo env this (set_isWithinWorkHours generated true)).
Proof.
  intros Hout Hin.
  destruct (findAvailableSlots_origin env this task service_answers _ _ _ _ _ Hout)
    as (potentialSlots & Hgen & Horigin).
  destruct (Horigin slot Hin) as (generated & Hgenerated & Hpass & _ & Hslot).
  exists potentialSlots, generated. split; [exact Hgen|]. split; [exact Hgenerated|].
  destruct (generatePotentialSlots_slots _ _ _ _ _ _ _ Hgen) as (Hall & _).
  rewrite Forall_forall in Hall. destruct (Hall _ Hgenerated) as (Hfresh & _ & _ & Hpos).
  split; [exact Hfresh|]. split; [exact Hpos|]. split; [|exact Hslot].
  apply workHoursFilterResult_rule. exact Hpass.
Qed.

End Output.

(** X11: every slot that [findAvailableSlots] returns is an available one: it
    passes the work-hours rule and has its flag [isWithinWorkHours] up, it
    carries no conflict and no energy level, and its flag [hasBufferTime]
    is up exactly when the buffers before and after it pass the work-hours
    rule. *)
Theorem returned_slots_are_available (env : Env) (this : t) (task : Task)
    (fuel : nat) (startDate endDate : Date) (st : ManagerState)
    (output : list TimeSlot) :
  answersEachSlot (calendarService this) ->
  resultOf (findAvailableSlots fuel env this task startDate endDate) st
  = Some output ->
  Forall
    (fun slot =>
       workHoursRule env this slot
       /\ Scheduling.isWithinWorkHours slot = true
       /\ conflicts slot = []
       /\ energyLevel slot = None
       /\ (hasBufferTime slot = true <->
           workHoursRule env this (beforeBuffer (calculateBufferTimes env this slot))
           /\ workHoursRule env this (afterBuffer (calculateBufferTimes env this slot))))
    output.
Proof.
  intros Hservice Hout. apply Forall_forall. intros slot Hin.
  destruct (findAvailableSlots_fresh_origin env this task Hservice _ _ _ _ _ _
              Hout Hin)
    as (potentialSlots & generated & _ & _ & Hfresh & _ & Hrule & ->).
  destruct Hfresh as (_ & Hconflicts & Henergy & _).
  split; [exact Hrule|]. split; [reflexivity|].
  split; [exact Hconflicts|]. split; [exact Henergy|].
  unfold scoreSlotsTo, applyBufferTimesTo, set_score, set_hasBufferTime,
    calculateBufferTimes. cbn [hasBufferTime beforeBuffer afterBuffer start end_
                               Scheduling.isWithinWorkHours set_isWithinWorkHours].
  rewrite andb_true_iff, !isWithinWorkHours_rule. reflexivity.
Qed.

(** A Monday morning: the slots returned are flagged within work hours;
    the one of 09:30 has room for its buffers. *)
Lemma returned_slots_are_available_witness :
  let output :=
    resultOf
      (findAvailableSlots 10
         (Fixture.env (Fixture.at_ Fixture.monday 9 0))
         (Fixture.manager Fixture.nineToFive Fixture.freeCalendar)
         (Fixture.taskOf (Some 30))
         (Fixture.at_ Fixture.monday 9 0) (Fixture.at_ Fixture.monday 10 0))
      Fixture.idle in
  option_map (map (fun slot => (start slot, hasBufferTime slot))) output
  = Some [(Fixture.at_ Fixture.monday 9 30, true)]
  /\ forall slots,
       output = Some slots ->
       Forall (fun slot => Scheduling.isWithinWorkHours slot = true) slots.
Proof.
  intros output. split; [vm_compute; reflexivity|].
  intros slots Hout.
  assert (Hservice : answersEachSlot
                       (calendarService
                          (Fixture.manager Fixture.nineToFive Fixture.freeCalendar))).
  { intros slotsToCheck calendars taskId. simpl. unfold Fixture.answer.
    rewrite map_map. reflexivity. }
  assert (H := returned_slots_are_available _ _ _ _ _ _ _ _ Hservice Hout).
  eapply Forall_impl; [|exact H]. simpl. intros slot Hslot. apply Hslot.
Defined.

(** X12: the score of a returned slot is the total that the scorer gives, from
    the tasks read at the start of the call and not from the ones it held
    before, for that slot with a score of 0. *)
Theorem returned_scores_come_from_refreshed_tasks (env : Env) (this : t)
    (task : Task) (fuel : nat) (startDate endDate : Date) (st : ManagerState)
    (output : list TimeSlot) :
  answersEachSlot (calendarService this) ->
  resultOf (findAvailableSlots fuel env this task startDate endDate) st
  = Some output ->
  Forall
    (fun slot =>
       score slot
       = scoreSlotTotal (slotScorer this) (filter isScheduledTask (prisma this))
           (now env) (set_score slot 0) task)
    output.
Proof.
  intros Hservice Hout. apply Forall_forall. intros slot Hin.
  destruct (findAvailableSlots_fresh_origin env this task Hservice _ _ _ _ _ _
              Hout Hin)
    as (potentialSlots & generated & _ & _ & Hfresh & _ & _ & ->).
  destruct Hfresh as (Hscore & _).
  unfold scoreSlotsTo at 1. cbn [score set_score]. f_equal.
  unfold scoreSlotsTo, applyBufferTimesTo, set_score, set_hasBufferTime,
    set_isWithinWorkHours. cbn. rewrite Hscore. reflexivity.
Qed.

(** With the baseline scorer at Monday 09:00: the slot of 10:00 has the
    score -1. *)
Lemma returned_scores_witness :
  let output :=
    resultOf
      (findAvailableSlots 10
         (Fixture.env (Fixture.at_ Fixture.monday 9 0))
         (Fixture.manager Fixture.nineToFive Fixture.freeCalendar)
         (Fixture.taskOf (Some 30))
         (Fixture.at_ Fixture.monday 9 0) (Fixture.at_ Fixture.monday 10 30))
      (mkManagerState [Fixture.taskOf (Some 45)] []) in
  option_map (map score) output = Some [0; -1]
  /\ forall slots,
       output = Some slots ->
       Forall (fun slot =>
                 score slot = - differenceInHours (start slot)
                                  (Fixture.at_ Fixture.monday 9 0)) slots.
Proof.
  intros output. split; [vm_compute; reflexivity|].
  intros slots Hout.
  assert (Hservice : answersEachSlot
                       (calendarService
                          (Fixture.manager Fixture.nineToFive Fixture.freeCalendar))).
  { intros slotsToCheck calendars taskId. simpl. unfold Fixture.answer.
    rewrite map_map. reflexivity. }
  assert (H := returned_scores_come_from_refreshed_tasks _ _ _ _ _ _ _ _
                 Hservice Hout).
  eapply Forall_impl; [|exact H]. simpl. intros slot Hslot. exact Hslot.
Defined.

Lemma slotNumber_disjoint (from : Date) (duration : Z) (i j : nat) :
  0 < duration -> (i < j)%nat ->
  end_ (slotNumber from duration i) <= start (slotNumber from duration j).
Proof.
  intros Hpos Hlt. unfold slotNumber, addMinutes, msPerMinute. cbn [start end_].
  assert (0 <= (Z.of_nat j - (Z.of_nat i + 1)) * duration) by (apply Z.mul_nonneg_nonneg; lia).
  lia.
Qed.

(** X13: the slots that [findAvailableSlots] returns do not overlap: of two
    different slots of the output, one ends at or before the start of the
    other. *)
Theorem returned_slots_do_not_overlap (env : Env) (this : t) (task : Task)
    (fuel : nat) (startDate endDate : Date) (st : ManagerState)
    (output : list TimeSlot) :
  answersEachSlot (calendarService this) ->
  resultOf (findAvailableSlots fuel env this task startDate endDate) st
  = Some output ->
  forall a b, In a output -> In b output -> a = b \/ disjointSlots a b.
Proof.
  intros Hservice Hout a b Ha Hb.
  destruct (findAvailableSlots_fresh_origin env this task Hservice _ _ _ _ _ _
              Hout Ha)
    as (potentialSlots & ga & Hgen & Hga & _ & Hpos & _ & ->).
  destruct (findAvailableSlots_fresh_origin env this task Hservice _ _ _ _ _ _
              Hout Hb)
    as (potentialSlots' & gb & Hgen' & Hgb & _ & _ & _ & ->).
  rewrite Hgen in Hgen'. injection Hgen' as <-.
  destruct (generatePotentialSlots_row _ _ _ _ _ _ _ Hgen) as (n & -> & _ & _).
  apply in_map_iff in Hga. destruct Hga as (i & <- & _).
  apply in_map_iff in Hgb. destruct Hgb as (j & <- & _).
  unfold disjointSlots. cbn [start end_ scoreSlotsTo applyBufferTimesTo set_score
                               set_hasBufferTime set_isWithinWorkHours].
  destruct (Nat.lt_trichotomy i j) as [Hlt|[->|Hlt]].
  - right. left. apply slotNumber_disjoint; assumption.
  - left. reflexivity.
  - right. right. apply slotNumber_disjoint; assumption.
Qed.

(** A 45 minute task on a Monday morning: the slots of 09:30 and 10:15. *)
Lemma returned_slots_do_not_overlap_witness :
  let output :=
    resultOf
      (findAvailableSlots 10
         (Fixture.env (Fixture.at_ Fixture.monday 9 0))
         (Fixture.manager Fixture.nineToFive Fixture.freeCalendar)
         (Fixture.taskOf (Some 45))
         (Fixture.at_ Fixture.monday 9 0) (Fixture.at_ Fixture.monday 10 30))
      Fixture.idle in
  option_map (map (fun slot => (start slot, end_ slot))) output
  = Some [(Fixture.at_ Fixture.monday 9 30, Fixture.at_ Fixture.monday 10 15);
          (Fixture.at_ Fixture.monday 10 15, Fixture.at_ Fixture.monday 11 0)]
  /\ forall slots a b,
       output = Some slots -> In a slots -> In b slots ->
       a = b \/ disjointSlots a b.
Proof.
  intros output. split; [vm_compute; reflexivity|].
  intros slots a b Hout.
  assert (Hservice : answersEachSlot
                       (calendarService
                          (Fixture.manager Fixture.nineToFive Fixture.freeCalendar))).
  { intros slotsToCheck calendars taskId. simpl. unfold Fixture.answer.
    rewrite map_map. reflexivity. }
  apply (returned_slots_do_not_overlap _ _ _ _ _ _ _ _ Hservice Hout).
Defined.

(** X14: with no calendar selected, every slot that [findAvailableSlots]
    returns is one that [isSlotAvailable] accepts. *)
Theorem returned_slots_are_accepted_without_calendars (env : Env) (this : t)
    (task : Task) (fuel : nat) (startDate endDate : Date) (st st' : ManagerState)
    (output : list TimeSlot) :
  answersEachSlot (calendarService this) ->
  parseSelectedCalendars env (selectedCalendars (settings this)) = [] ->
  resultOf (findAvailableSlots fuel env this task startDate endDate) st
  = Some output ->
  Forall (fun slot => resultOf (isSlotAvailable env this slot) st' = true) output.
Proof.
  intros Hservice Hnone Hout. apply Forall_forall. intros slot Hin.
  destruct (findAvailableSlots_fresh_origin env this task Hservice _ _ _ _ _ _
              Hout Hin)
    as (potentialSlots & generated & _ & _ & _ & _ & Hrule & ->).
  unfold resultOf. rewrite isSlotAvailable_run, Hnone.
  apply isWithinWorkHours_rule in Hrule.
  match goal with
  | |- context [isWithinWorkHours env this ?final] =>
      change (isWithinWorkHours env this final)
        with (isWithinWorkHours env this generated)
  end.
  rewrite Hrule. reflexivity.
Qed.

(** A Monday morning without selected calendars. *)
Lemma returned_slots_are_accepted_witness :
  match
    resultOf
      (findAvailableSlots 10
         (Fixture.env (Fixture.at_ Fixture.monday 9 0))
         (Fixture.manager Fixture.nineToFive Fixture.freeCalendar)
         (Fixture.taskOf (Some 30))
         (Fixture.at_ Fixture.monday 9 0) (Fixture.at_ Fixture.monday 10 30))
      Fixture.idle
  with
  | Some slots =>
      List.length slots = 2%nat
      /\ Forall
           (fun slot =>
              resultOf
                (isSlotAvailable
                   (Fixture.env (Fixture.at_ Fixture.monday 9 0))
                   (Fixture.manager Fixture.nineToFive Fixture.freeCalendar) slot)
                Fixture.idle = true) slots
  | None => False
  end.
Proof.
  destruct (resultOf
              (findAvailableSlots 10
                 (Fixture.env (Fixture.at_ Fixture.monday 9 0))
                 (Fixture.manager Fixture.nineToFive Fixture.freeCalendar)
                 (Fixture.taskOf (Some 30))
                 (Fixture.at_ Fixture.monday 9 0) (Fixture.at_ Fixture.monday 10 30))
              Fixture.idle) as [slots|] eqn:Hout;
    [|vm_compute in Hout; discriminate].
  split.
  - vm_compute in Hout. injection Hout as <-. reflexivity.
  - apply (returned_slots_are_accepted_without_calendars
             (Fixture.env (Fixture.at_ Fixture.monday 9 0))
             (Fixture.manager Fixture.nineToFive Fixture.freeCalendar)
             (Fixture.taskOf (Some 30)) 10
             (Fixture.at_ Fixture.monday 9 0) (Fixture.at_ Fixture.monday 10 30)
             Fixture.idle Fixture.idle slots); [|reflexivity|exact Hout].
    intros slotsToCheck calendars taskId. simpl. unfold Fixture.answer.
    rewrite map_map. reflexivity.
Defined.

(** ** Settings that leave no work hours *)

Lemma workHoursFilterResult_degenerate (env : Env) (this : t) (slot : TimeSlot) :
  parseWorkDays env (workDays (settings this)) = []
  \/ workHourEnd (settings this) <= workHourStart (settings this) ->
  workHoursFilterResult env this slot = false.
Proof.
  intros Hsettings. apply not_true_is_false. intros Hpass.
  apply workHoursFilterResult_rule in Hpass.
  destruct Hpass as (Hday & Hfrom & _ & Hbefore).
  destruct Hsettings as [Hnone|Hempty].
  - rewrite Hnone in Hday. contradiction.
  - lia.
Qed.

(** X15: when no work day is decoded from the settings, or [workHourEnd] is not
    after [workHourStart], the work-hour filter keeps no slot,
    [isSlotAvailable] accepts no slot, and a call of [findAvailableSlots]
    that returns gives the empty sequence. *)
Theorem settings_without_work_hours_give_no_slot (env : Env) (this : t) :
  parseWorkDays env (workDays (settings this)) = []
  \/ workHourEnd (settings this) <= workHourStart (settings this) ->
  (forall slots, filterByWorkHours env this slots = [])
  /\ (forall slot st, resultOf (isSlotAvailable env this slot) st = false)
  /\ (answersEachSlot (calendarService this) ->
      forall task fuel startDate endDate st output,
        resultOf (findAvailableSlots fuel env this task startDate endDate) st
        = Some output ->
        output = []).
Proof.
  intros Hsettings. split; [|split].
  - intros slots. rewrite filterByWorkHours_filter.
    induction slots as [|slot rest IH]; [reflexivity|]. simpl.
    rewrite (workHoursFilterResult_degenerate env this slot Hsettings). exact IH.
  - intros slot st. unfold resultOf.
    rewrite isSlotAvailable_run, isWithinWorkHours_filter.
    rewrite (workHoursFilterResult_degenerate env this slot Hsettings). reflexivity.
  - intros Hservice task fuel startDate endDate st output Hout.
    destruct output as [|slot rest]; [reflexivity|]. exfalso.
    destruct (findAvailableSlots_origin env this task Hservice _ _ _ _ _ Hout)
      as (potentialSlots & _ & Horigin).
    destruct (Horigin slot (or_introl eq_refl)) as (generated & _ & Hpass & _).
    rewrite (workHoursFilterResult_degenerate env this generated Hsettings) in Hpass.
    discriminate.
Qed.

(** Work hours from 17 to 9: nothing is returned for a Monday. *)
Lemma settings_without_work_hours_witness :
  resultOf
    (findAvailableSlots 10
       (Fixture.env (Fixture.at_ Fixture.monday 9 0))
       (Fixture.manager (mkSettings 17 9 "[1,2,3,4,5]" 15 "[]") Fixture.freeCalendar)
       (Fixture.taskOf (Some 30))
       (Fixture.at_ Fixture.monday 9 0) (Fixture.at_ Fixture.monday 11 0))
    Fixture.idle
  = Some [].
Proof.
  destruct (resultOf
              (findAvailableSlots 10
                 (Fixture.env (Fixture.at_ Fixture.monday 9 0))
                 (Fixture.manager (mkSettings 17 9 "[1,2,3,4,5]" 15 "[]")
                    Fixture.freeCalendar)
                 (Fixture.taskOf (Some 30))
                 (Fixture.at_ Fixture.monday 9 0) (Fixture.at_ Fixture.monday 11 0))
              Fixture.idle) as [output|] eqn:Hout;
    [|vm_compute in Hout; discriminate].
  f_equal.
  destruct (settings_without_work_hours_give_no_slot
              (Fixture.env (Fixture.at_ Fixture.monday 9 0))
              (Fixture.manager (mkSettings 17 9 "[1,2,3,4,5]" 15 "[]")
                 Fixture.freeCalendar)) as (_ & _ & Hnone).
  - right. simpl. lia.
  - apply (Hnone ltac:(intros slotsToCheck calendars taskId; simpl;
                       unfold Fixture.answer; rewrite map_map; reflexivity)
             _ _ _ _ _ _ Hout).
Defined.

(** ** Stages applied twice *)

(** X16: the work-hour filter, the buffer stage and the sort by score each give
    the same sequence when applied to their own output; the buffer stage
    sets its flag whatever the flag was; and the sort leaves a sequence
    that is already ranked as it is. *)
Theorem stages_are_idempotent (env : Env) (this : t) (slots : list TimeSlot) :
  filterByWorkHours env this (filterByWorkHours env this slots)
  = filterByWorkHours env this slots
  /\ applyBufferTimes env this (applyBufferTimes env this slots)
     = applyBufferTimes env this slots
  /\ (forall slot flag,
        applyBufferTimesTo env this (set_hasBufferTime slot flag)
        = applyBufferTimesTo env this slot)
  /\ sortByScore (sortByScore slots) = sortByScore slots
  /\ (StronglySorted (fun a b => score b <= score a) slots ->
      sortByScore slots = slots).
Proof.
  assert (Hfixed : forall l,
             StronglySorted (fun a b => score b <= score a) l -> sortByScore l = l).
  { unfold sortByScore, sort. induction 1 as [|x rest Hsorted IH Hall]; [reflexivity|].
    simpl. rewrite IH. destruct rest as [|y rest]; [reflexivity|]. simpl.
    apply Forall_inv in Hall.
    destruct (Z.leb_spec (score y - score x) 0); [reflexivity|lia]. }
  split; [|split; [|split; [|split]]].
  - induction slots as [|slot rest IH]; [reflexivity|]. simpl.
    destruct (workHoursFilterResult env this slot) eqn:Hpass; [|exact IH].
    simpl.
    rewrite (workHoursFilterResult_interval env this
               (set_isWithinWorkHours slot true) slot eq_refl eq_refl), Hpass.
    rewrite IH. reflexivity.
  - unfold applyBufferTimes. rewrite map_map. apply map_ext. reflexivity.
  - reflexivity.
  - apply Hfixed. apply sortByScore_sorted.
  - apply Hfixed.
Qed.

(** Slots already ranked by score come back in the same order. *)
Lemma stages_are_idempotent_witness :
  sortByScore
    [set_score (Fixture.slotAt 0 1) 5; set_score (Fixture.slotAt 2 3) 5;
     set_score (Fixture.slotAt 1 2) 1]
  = [set_score (Fixture.slotAt 0 1) 5; set_score (Fixture.slotAt 2 3) 5;
     set_score (Fixture.slotAt 1 2) 1].
Proof.
  apply (stages_are_idempotent
           (Fixture.env 0) (Fixture.manager Fixture.nineToFive Fixture.freeCalendar)).
  repeat constructor; simpl; lia.
Defined.

(** ** Conflict removal when nothing conflicts *)

Lemma filter_all {A} (keep : A -> bool) (l : list A) :
  (forall x, In x l -> keep x = true) -> filter keep l = l.
Proof.
  induction l as [|x rest IH]; simpl; intros Hall; [reflexivity|].
  rewrite (Hall x (or_introl eq_refl)), IH; auto.
Qed.

(** X17: with a calendar service that answers one result per slot asked, the
    removal stage never returns more slots than it is given, and returns
    them all, in order and unchanged, when no conflict is reported. *)
Theorem removeConflicts_keeps_all_without_conflicts (env : Env) (this : t)
    (task : Task) (slots : list TimeSlot) (st : ManagerState) :
  answersEachSlot (calendarService this) ->
  (List.length (resultOf (removeConflicts env this slots task) st)
   <= List.length slots)%nat
  /\ ((forall result,
         In result (batchAnswer env this slots task) -> resultConflicts result = []) ->
      resultOf (removeConflicts env this slots task) st = slots).
Proof.
  intros Hservice. unfold resultOf. rewrite removeConflicts_run. simpl.
  rewrite processResults_filter. split.
  - rewrite length_map.
    rewrite <- (batchAnswer_slots env this task Hservice slots) at 2.
    rewrite length_map. apply filter_length_le.
  - intros Hnone. rewrite filter_all.
    + apply batchAnswer_slots. exact Hservice.
    + intros result Hin. unfold noConflicts. rewrite (Hnone result Hin). reflexivity.
Qed.

(** A free calendar keeps both slots. *)
Lemma removeConflicts_keeps_all_witness :
  let slots :=
    [Fixture.slotAt (Fixture.at_ Fixture.monday 9 0) (Fixture.at_ Fixture.monday 9 30);
     Fixture.slotAt (Fixture.at_ Fixture.monday 9 30) (Fixture.at_ Fixture.monday 10 0)] in
  resultOf
    (removeConflicts
       (Fixture.env (Fixture.at_ Fixture.monday 9 0))
       (Fixture.manager (Fixture.nineToFiveWith "[work]") Fixture.freeCalendar)
       slots (Fixture.taskOf (Some 30)))
    Fixture.idle
  = slots.
Proof.
  intros slots.
  apply (removeConflicts_keeps_all_without_conflicts
           (Fixture.env (Fixture.at_ Fixture.monday 9 0))
           (Fixture.manager (Fixture.nineToFiveWith "[work]") Fixture.freeCalendar)).
  - intros slotsToCheck calendars taskId. simpl. unfold Fixture.answer.
    rewrite map_map. reflexivity.
  - intros result Hin. vm_compute in Hin.
    destruct Hin as [<-|[<-|[]]]; reflexivity.
Defined.

(** ** The baseline score *)

(** X18: [calculateBaseScore] prefers earlier slots: of two slots, the one that
    starts first has a score at least as high; the score counts whole
    hours, so that a slot starting less than an hour from the clock, before
    or after it, has the score 0. *)
Theorem base_score_prefers_earlier_slots (env : Env) (a b : TimeSlot) :
  start a <= start b ->
  calculateBaseScore env a >= calculateBaseScore env b
  /\ scoreSlot env a >= scoreSlot env b
  /\ (now env - msPerHour < start a < now env + msPerHour ->
      calculateBaseScore env a = 0).
Proof.
  intros Hle.
  assert (Hmono : calculateBaseScore env a >= calculateBaseScore env b).
  { unfold calculateBaseScore, differenceInHours.
    assert (H := Z.quot_le_mono (start a - now env) (start b - now env) msPerHour
                   eq_refl ltac:(lia)).
    lia. }
  split; [exact Hmono|]. split; [exact Hmono|].
  intros Hnear. unfold calculateBaseScore, differenceInHours.
  destruct (Z.le_gt_cases 0 (start a - now env)) as [Hafter|Hbefore].
  - rewrite Z.quot_small by lia. reflexivity.
  - replace (start a - now env) with (- (now env - start a)) by lia.
    rewrite Z.quot_opp_l by discriminate.
    rewrite Z.quot_small by lia. reflexivity.
Qed.

(** At Monday 09:00 the slot of 09:30 scores 0 and the one of 11:00
    scores -2. *)
Lemma base_score_witness :
  let env := Fixture.env (Fixture.at_ Fixture.monday 9 0) in
  let early := Fixture.slotAt (Fixture.at_ Fixture.monday 9 30)
                 (Fixture.at_ Fixture.monday 10 0) in
  let late := Fixture.slotAt (Fixture.at_ Fixture.monday 11 0)
                (Fixture.at_ Fixture.monday 11 30) in
  calculateBaseScore env early >= calculateBaseScore env late
  /\ calculateBaseScore env early = 0
  /\ calculateBaseScore env late = -2.
Proof.
  intros env early late.
  destruct (base_score_prefers_earlier_slots env early late) as (Hge & _ & Hzero).
  - vm_compute. discriminate.
  - split; [exact Hge|]. split; [|vm_compute; reflexivity].
    apply Hzero. vm_compute. split; reflexivity.
Defined.

(** ** Buffers at the end of the day *)

(** X19: a slot whose local end is in the hour [workHourEnd] or later never
    gets [hasBufferTime], whatever [bufferMinutes] is, zero too: the buffer
    after it starts at its end, and the work-hours rule wants a start hour
    strictly before [workHourEnd]. *)
Theorem slot_ending_at_work_end_has_no_buffer_time (env : Env) (this : t)
    (slot : TimeSlot) :
  getHours (toZonedTime (zones env) (end_ slot) (timeZone this))
  >= workHourEnd (settings this) ->
  Scheduling.isWithinWorkHours (afterBuffer (calculateBufferTimes env this slot))
  = false
  /\ hasBufferTime (applyBufferTimesTo env this slot) = false
  /\ forall slots,
       In slot slots ->
       In (set_hasBufferTime slot false) (applyBufferTimes env this slots).
Proof.
  intros Hend.
  assert (Hafter : Scheduling.isWithinWorkHours
                     (afterBuffer (calculateBufferTimes env this slot)) = false).
  { unfold calculateBufferTimes. cbn [afterBuffer Scheduling.isWithinWorkHours].
    apply not_true_is_false. intros Hpass.
    apply isWithinWorkHours_rule in Hpass.
    destruct Hpass as (_ & _ & _ & Hbefore). cbn [start] in Hbefore. lia. }
  assert (Hflag : applyBufferTimesTo env this slot = set_hasBufferTime slot false).
  { unfold applyBufferTimesTo. cbv zeta. rewrite Hafter, andb_false_r. reflexivity. }
  split; [exact Hafter|]. split.
  - rewrite Hflag. reflexivity.
  - intros slots Hin. rewrite <- Hflag. unfold applyBufferTimes.
    apply in_map. exact Hin.
Qed.

(** The last slot of a Monday, 16:30-17:00, with work hours up to 17. *)
Lemma slot_ending_at_work_end_witness :
  let env := Fixture.env (Fixture.at_ Fixture.monday 9 0) in
  let this := Fixture.manager Fixture.nineToFive Fixture.freeCalendar in
  let last := set_isWithinWorkHours
                (Fixture.slotAt (Fixture.at_ Fixture.monday 16 30)
                   (Fixture.at_ Fixture.monday 17 0)) true in
  filterByWorkHours env this [last] = [last]
  /\ hasBufferTime (applyBufferTimesTo env this last) = false.
Proof.
  intros env this last. split; [vm_compute; reflexivity|].
  apply (slot_ending_at_work_end_has_no_buffer_time env this last).
  vm_compute. discriminate.
Defined.

(** * Properties of the day view *)

Module DayViewFacts.

Import DayView.

Lemma orText_not_empty (a : option string) (b : string) :
  b <> ""%string -> orText a b <> ""%string.
Proof.
  intros Hb. unfold orText. destruct a as [text|]; [|exact Hb].
  destruct (String.eqb_spec text ""); assumption.
Qed.

Lemma itemColor_not_empty (feeds : list Feed) (item : CalendarItem) :
  itemColor feeds item <> ""%string.
Proof.
  unfold itemColor. destruct (String.eqb (feedId item) "tasks");
    apply orText_not_empty; discriminate.
Qed.

(** X21: [handleDatesSet] shows, in the order of the items, the items of the
    feed "tasks" and the items whose feed, the first one of the list with
    their feed identifier, is enabled; an item of a disabled or unknown
    feed is not shown.  Every event shown has one colour for its
    background and its border, never the empty text, and one class name. *)
Theorem shown_items_follow_their_feed (feeds : list Feed) (items : list CalendarItem) :
  (forall item,
     In (formatItem feeds item) (handleDatesSet feeds items) <->
     In item items
     /\ (feedId item = "tasks"%string
         \/ exists feed,
              findFeed feeds (feedId item) = Some feed /\ enabled feed = true))
  /\ map formattedItem (handleDatesSet feeds items) = filter (isShown feeds) items
  /\ Forall
       (fun event =>
          backgroundColor event = borderColor event
          /\ backgroundColor event <> ""%string
          /\ (classNames event = ["calendar-task"%string]
              \/ classNames event = ["calendar-event"%string]))
       (handleDatesSet feeds items).
Proof.
  assert (Hshown : forall item,
             isShown feeds item = true <->
             feedId item = "tasks"%string
             \/ exists feed,
                  findFeed feeds (feedId item) = Some feed /\ enabled feed = true).
  { intros item. unfold isShown.
    destruct (String.eqb_spec (feedId item) "tasks") as [Htasks|Hother].
    - split; auto.
    - destruct (findFeed feeds (feedId item)) as [feed|].
      + split.
        * intros Henabled. right. exists feed. auto.
        * intros [Htasks|(other & [= <-] & Henabled)]; [contradiction|assumption].
      + split; [discriminate|].
        intros [Htasks|(other & Hnone & _)]; [contradiction|discriminate]. }
  split; [|split].
  - intros item. unfold handleDatesSet. rewrite in_map_iff. split.
    + intros (other & Hsame & Hin).
      assert (other = item) by (apply (f_equal formattedItem) in Hsame; exact Hsame).
      subst other. apply filter_In in Hin. destruct Hin as (Hin & Hpass).
      split; [exact Hin|]. apply Hshown. exact Hpass.
    + intros (Hin & Hfeed). exists item. split; [reflexivity|].
      apply filter_In. split; [exact Hin|]. apply Hshown. exact Hfeed.
  - unfold handleDatesSet. rewrite map_map. apply map_id.
  - unfold handleDatesSet. apply Forall_forall. intros event Hin.
    apply in_map_iff in Hin. destruct Hin as (item & <- & _). simpl.
    split; [reflexivity|]. split; [apply itemColor_not_empty|].
    destruct (extendedProps item) as [props|]; [destruct (isTaskProp props)|]; auto.
Qed.

(** X22: a date selection opens the event modal on the dates selected, whatever
    the defaults of the store, a selection of a whole day ending when it
    starts; closing the event modal, from any state, leaves it closed with
    no event and no default date, in the component and in the store, and
    leaves the task modal and the quick view as they are. *)
Theorem date_selection_opens_and_close_clears (selectInfo : DateSelectArg)
    (st : State) :
  let opened := handleDateSelect selectInfo st in
  let closed := handleEventModalClose st in
  (eventModalIsOpen opened = true
   /\ selectedEvent opened = Some (NewEvent (selectAllDay selectInfo))
   /\ eventModalDefaultDate opened = Some (selectStart selectInfo)
   /\ eventModalDefaultEndDate opened
      = Some (if selectAllDay selectInfo then selectStart selectInfo
              else selectEnd selectInfo))
  /\ (eventModalIsOpen closed = false
      /\ selectedEvent closed = None
      /\ eventModalDefaultDate closed = None
      /\ eventModalDefaultEndDate closed = None
      /\ taskModalIsOpen closed = taskModalIsOpen st
      /\ quickViewItem closed = quickViewItem st)
  /\ handleEventModalClose (handleDateSelect selectInfo st)
     = handleEventModalClose st.
Proof. repeat split. Qed.

(** X23: editing from the quick view does nothing without an item; with an item
    it closes the quick view and opens one modal on that item: the task
    modal if the item is a task, leaving the event modal as it is, and the
    event modal otherwise, leaving the task modal as it is. *)
Theorem quick_view_edit_opens_one_modal (st : State) :
  (quickViewItem st = None -> handleQuickViewEdit st = st)
  /\ (forall item,
        quickViewItem st = Some item ->
        let edited := handleQuickViewEdit st in
        quickViewIsOpen edited = false
        /\ (isTask st = true ->
            taskModalIsOpen edited = true
            /\ selectedTask edited = Some item
            /\ selectedEvent edited = selectedEvent st
            /\ eventModalIsOpen edited = eventModalIsOpen st)
        /\ (isTask st = false ->
            eventModalIsOpen edited = true
            /\ selectedEvent edited = Some (StoredEvent item)
            /\ selectedTask edited = selectedTask st
            /\ isTaskModalOpen edited = isTaskModalOpen st)).
Proof.
  split.
  - intros Hnone. unfold handleQuickViewEdit. rewrite Hnone. reflexivity.
  - intros item Hitem edited. subst edited. unfold handleQuickViewEdit.
    rewrite Hitem. destruct (isTask st); repeat split; discriminate.
Qed.

(** A task in the quick view, edited. *)
Lemma quick_view_edit_witness :
  let st :=
    mkState None None None None false false (Some (mkViewItem "task-1" false))
      (0, 0) true (mkEventModalStore false None None) in
  quickViewIsOpen (handleQuickViewEdit st) = false
  /\ taskModalIsOpen (handleQuickViewEdit st) = true.
Proof.
  intros st.
  destruct (quick_view_edit_opens_one_modal st) as (_ & Hedit).
  destruct (Hedit (mkViewItem "task-1" false) eq_refl) as (Hclosed & Htask & _).
  split; [exact Hclosed|]. apply Htask. reflexivity.
Defined.

(** X24: a click places the quick view 8 below the clicked element.  A click on
    a task that the task store does not hold leaves the item of the quick
    view as it was; a click on an event that the event store does not hold
    empties the quick view; a click on an item that its store holds shows
    the first item of the store with that identifier. *)
Theorem event_click_shows_the_stored_item (tasks events : list ViewItem)
    (info : EventClickArg) (st : State) :
  let clicked := handleEventClick tasks events info st in
  quickViewPosition clicked = (rectLeft info, rectBottom info + 8)
  /\ (clickedIsTask info = true ->
      findItem tasks (clickedId info) = None ->
      quickViewItem clicked = quickViewItem st /\ isTask clicked = isTask st)
  /\ (clickedIsTask info = false ->
      findItem events (clickedId info) = None ->
      quickViewIsOpen clicked = false /\ isTask clicked = false)
  /\ (forall item,
        findItem (if clickedIsTask info then tasks else events) (clickedId info)
        = Some item ->
        quickViewItem clicked = Some item
        /\ isTask clicked = clickedIsTask info
        /\ viewId item = clickedId info)
  /\ selectedEvent clicked = selectedEvent st
  /\ selectedTask clicked = selectedTask st
  /\ eventModalIsOpen clicked = eventModalIsOpen st
  /\ taskModalIsOpen clicked = taskModalIsOpen st.
Proof.
  intros clicked. subst clicked.
  split.
  { unfold handleEventClick. destruct (clickedIsTask info);
      [destruct (findItem tasks (clickedId info))|]; reflexivity. }
  split.
  { intros Htask Hnone. unfold handleEventClick. rewrite Htask, Hnone.
    split; reflexivity. }
  split.
  { intros Hevent Hnone. unfold handleEventClick, quickViewIsOpen.
    rewrite Hevent. simpl. rewrite Hnone. split; reflexivity. }
  split.
  { intros item Hfind.
    assert (Hkey : viewId item = clickedId info).
    { unfold findItem in Hfind. apply find_some in Hfind.
      destruct Hfind as (_ & Hkey). apply String.eqb_eq in Hkey. exact Hkey. }
    unfold handleEventClick. destruct (clickedIsTask info).
    - rewrite Hfind. simpl. auto.
    - simpl. auto. }
  unfold handleEventClick. destruct (clickedIsTask info);
    [destruct (findItem tasks (clickedId info))|]; repeat split.
Qed.

(** A click on a task that is not in the store, the quick view showing an
    event. *)
Lemma event_click_witness :
  let st :=
    mkState None None None None false false (Some (mkViewItem "event-1" true))
      (0, 0) false (mkEventModalStore false None None) in
  let clicked :=
    handleEventClick [mkViewItem "task-1" false] [mkViewItem "event-1" true]
      (mkEventClickArg "task-2" true 10 20) st in
  quickViewItem clicked = Some (mkViewItem "event-1" true)
  /\ quickViewPosition clicked = (10, 28).
Proof.
  intros st clicked.
  destruct (event_click_shows_the_stored_item
              [mkViewItem "task-1" false] [mkViewItem "event-1" true]
              (mkEventClickArg "task-2" true 10 20) st)
    as (Hposition & Hunknown & _).
  split; [|exact Hposition].
  apply (Hunknown eq_refl eq_refl).
Defined.

(** X25: deleting from the quick view asks nothing of the stores and changes
    nothing unless there is an item and the dialog is confirmed; then it
    closes the quick view and asks for the task to be deleted, or for the
    event to be removed, as a series when the event recurs and as a single
    event otherwise. *)
Theorem quick_view_delete_needs_confirmation (confirmed : bool) (st : State) :
  (quickViewItem st = None \/ confirmed = false ->
   handleQuickViewDelete confirmed st = (None, st))
  /\ (forall item,
        quickViewItem st = Some item -> confirmed = true ->
        quickViewIsOpen (snd (handleQuickViewDelete confirmed st)) = false
        /\ fst (handleQuickViewDelete confirmed st)
           = Some (if isTask st then DeleteTask (viewId item)
                   else RemoveEvent (viewId item)
                          (if viewIsRecurring item then "series" else "single"))).
Proof.
  split.
  - intros [Hnone|Hno]; unfold handleQuickViewDelete.
    + rewrite Hnone. reflexivity.
    + rewrite Hno. destruct (quickViewItem st), (isTask st); reflexivity.
  - intros item Hitem Hyes. unfold handleQuickViewDelete.
    rewrite Hitem, Hyes. destruct (isTask st); split; reflexivity.
Qed.

(** A recurring event, deleted with and without confirmation. *)
Lemma quick_view_delete_witness :
  let st :=
    mkState None None None None false false (Some (mkViewItem "event-1" true))
      (0, 0) false (mkEventModalStore false None None) in
  handleQuickViewDelete false st = (None, st)
  /\ fst (handleQuickViewDelete true st) = Some (RemoveEvent "event-1" "series").
Proof.
  intros st.
  destruct (quick_view_delete_needs_confirmation false st) as (Hno & _).
  destruct (quick_view_delete_needs_confirmation true st) as (_ & Hyes).
  split; [apply Hno; right; reflexivity|].
  destruct (Hyes (mkViewItem "event-1" true) eq_refl eq_refl) as (_ & Hrequest).
  exact Hrequest.
Defined.

End DayViewFacts.

(** * The free slots in the output *)

(** X20: no free slot is lost: with a calendar service that answers one result
    per slot asked, every work-hour slot that the service reports without
    conflicts is returned, with its buffer flag and its score, and the
    output has as many slots as results without conflicts. *)
Theorem free_slots_are_all_returned (env : Env) (this : t) (task : Task)
    (fuel : nat) (startDate endDate : Date) (st : ManagerState)
    (potentialSlots output : list TimeSlot) :
  answersEachSlot (calendarService this) ->
  generatePotentialSlots fuel env this (durationOrDefault task) startDate endDate
  = Some potentialSlots ->
  resultOf (findAvailableSlots fuel env this task startDate endDate) st
  = Some output ->
  let answer :=
    batchAnswer env this (filterByWorkHours env this potentialSlots) task in
  (forall result,
     In result answer -> resultConflicts result = [] ->
     In (resultSlot result) (filterByWorkHours env this potentialSlots)
     /\ In (scoreSlotsTo env this (filter isScheduledTask (prisma this)) task
              (applyBufferTimesTo env this (resultSlot result)))
           output)
  /\ List.length output = List.length (filter noConflicts answer).
Proof.
  intros Hservice Hgen Hout answer. unfold resultOf in Hout.
  rewrite findAvailableSlots_run, Hgen in Hout. simpl in Hout.
  injection Hout as <-. fold answer. split.
  - intros result Hin Hnone. split.
    + apply (in_map resultSlot) in Hin. subst answer.
      rewrite batchAnswer_slots in Hin by assumption. exact Hin.
    + apply (Permutation_in _ (Permutation_sym (sort_Permutation _ _))).
      apply in_map. unfold applyBufferTimes. apply in_map.
      apply (proj2 (processResults_In env this task _ _)). eauto.
  - unfold sortByScore. rewrite (Permutation_length (sort_Permutation _ _)).
    unfold applyBufferTimes. rewrite !length_map, processResults_filter, length_map.
    reflexivity.
Qed.

(** A Monday morning with a meeting from 10:00 to 10:30: two of the three
    work-hour slots are free, and two slots are returned. *)
Lemma free_slots_are_all_returned_witness :
  let env := Fixture.env (Fixture.at_ Fixture.monday 9 0) in
  let this :=
    Fixture.manager (Fixture.nineToFiveWith "[work]")
      (Fixture.busyBetween (Fixture.at_ Fixture.monday 10 0)
         (Fixture.at_ Fixture.monday 10 30)) in
  let task := Fixture.taskOf (Some 30) in
  match
    generatePotentialSlots 10 env this (durationOrDefault task)
      (Fixture.at_ Fixture.monday 9 0) (Fixture.at_ Fixture.monday 11 0),
    resultOf
      (findAvailableSlots 10 env this task
         (Fixture.at_ Fixture.monday 9 0) (Fixture.at_ Fixture.monday 11 0))
      Fixture.idle
  with
  | Some potentialSlots, Some output =>
      List.length output
      = List.length
          (filter noConflicts
             (batchAnswer env this (filterByWorkHours env this potentialSlots) task))
      /\ List.length output = 2%nat
  | _, _ => False
  end.
Proof.
  intros env this task.
  destruct (generatePotentialSlots 10 env this (durationOrDefault task)
              (Fixture.at_ Fixture.monday 9 0) (Fixture.at_ Fixture.monday 11 0))
    as [potentialSlots|] eqn:Hgen; [|vm_compute in Hgen; discriminate].
  destruct (resultOf
              (findAvailableSlots 10 env this task
                 (Fixture.at_ Fixture.monday 9 0) (Fixture.at_ Fixture.monday 11 0))
              Fixture.idle) as [output|] eqn:Hout;
    [|vm_compute in Hout; discriminate].
  assert (Hservice : answersEachSlot (calendarService this)).
  { intros slotsToCheck calendars taskId. simpl. unfold Fixture.answer.
    rewrite map_map. reflexivity. }
  destruct (free_slots_are_all_returned env this task 10 _ _ Fixture.idle
              potentialSlots output Hservice Hgen Hout) as (_ & Hcount).
  split; [exact Hcount|].
  vm_compute in Hout. injection Hout as <-. reflexivity.
Defined.
